(** * Contest Form Generator: a shallow embedding of [app.py]

    The numbering and layout-composition pipeline of the form generator:
    judge balancing and numbering, RTF escaping and label generation,
    margin scaling, and the page composition loops of the generation
    modes.

    Conventions of the embedding.
    - A Python [str] is a Rocq [string]; its characters are read as ASCII
      code points.  Characters of code 128 and above are carried along
      but are neither whitespace, nor cased, nor alphanumeric.
    - A DataFrame is the ordered list of its records (row order is the
      positional order of the frame); a missing cell (NaN) is [None].
    - Page coordinates are exact rationals ([Q]) where the program
      computes with binary floating point. *)

From Stdlib Require Import String Ascii List Bool Arith ZArith QArith Lia Lqa.
From Stdlib Require Import Permutation Sorted Qminmax.
From Stdlib Require DecimalString.
Import ListNotations.

Local Close Scope Q_scope.
Local Open Scope nat_scope.
Local Open Scope string_scope.
Local Open Scope list_scope.

(** ** Python string primitives *)

Module PyStr.

Definition code (c : ascii) : nat := nat_of_ascii c.

Definition between (lo hi : nat) (c : ascii) : bool :=
  Nat.leb lo (code c) && Nat.leb (code c) hi.

(** [str.isspace] on one character: TAB..CR, FS..US and the blank. *)
Definition isspace (c : ascii) : bool :=
  between 9 13 c || between 28 32 c.

Definition isupper (c : ascii) : bool := between 65 90 c.
Definition islower (c : ascii) : bool := between 97 122 c.
Definition isdigit (c : ascii) : bool := between 48 57 c.
Definition iscased (c : ascii) : bool := isupper c || islower c.
Definition isalnum (c : ascii) : bool := iscased c || isdigit c.

Definition to_upper (c : ascii) : ascii :=
  if islower c then ascii_of_nat (code c - 32) else c.
Definition to_lower (c : ascii) : ascii :=
  if isupper c then ascii_of_nat (code c + 32) else c.

Fixpoint map_chars (f : ascii -> ascii) (s : string) : string :=
  match s with
  | EmptyString => EmptyString
  | String c s' => String (f c) (map_chars f s')
  end.

Fixpoint filter_chars (p : ascii -> bool) (s : string) : string :=
  match s with
  | EmptyString => EmptyString
  | String c s' => if p c then String c (filter_chars p s') else filter_chars p s'
  end.

(** [s.upper()] *)
Definition upper (s : string) : string := map_chars to_upper s.

(** [s.title()]: a cased character is upper-cased when the character
    before it is not cased, and lower-cased otherwise. *)
Fixpoint title_from (prev_cased : bool) (s : string) : string :=
  match s with
  | EmptyString => EmptyString
  | String c s' =>
      String (if prev_cased then to_lower c else to_upper c)
             (title_from (iscased c) s')
  end.
Definition title (s : string) : string := title_from false s.

Fixpoint lstrip (s : string) : string :=
  match s with
  | EmptyString => EmptyString
  | String c s' => if isspace c then lstrip s' else s
  end.

Fixpoint rstrip (s : string) : string :=
  match s with
  | EmptyString => EmptyString
  | String c s' =>
      match rstrip s' with
      | EmptyString => if isspace c then EmptyString else String c EmptyString
      | r => String c r
      end
  end.

(** [s.strip()] *)
Definition strip (s : string) : string := rstrip (lstrip s).

(** [s.split()]: the maximal runs of non-whitespace characters.  [cur]
    is the token being read, in reverse. *)
Fixpoint rev_string (acc s : string) : string :=
  match s with
  | EmptyString => acc
  | String c s' => rev_string (String c acc) s'
  end.

Fixpoint split_from (cur : string) (s : string) : list string :=
  match s with
  | EmptyString =>
      match cur with
      | EmptyString => []
      | _ => [rev_string EmptyString cur]
      end
  | String c s' =>
      if isspace c then
        match cur with
        | EmptyString => split_from EmptyString s'
        | _ => rev_string EmptyString cur :: split_from EmptyString s'
        end
      else split_from (String c cur) s'
  end.
Definition split (s : string) : list string := split_from EmptyString s.

(** [sub in s] *)
Fixpoint contains (sub s : string) : bool :=
  prefix sub s ||
  match s with
  | EmptyString => false
  | String _ s' => contains sub s'
  end.

(** [s.replace(old, new)]: occurrences are found left to right and do
    not overlap; [skip] counts the characters of a matched occurrence
    still to be dropped. *)
Fixpoint replace_from (old new : string) (skip : nat) (s : string) : string :=
  match s with
  | EmptyString => EmptyString
  | String c s' =>
      match skip with
      | S k => replace_from old new k s'
      | O =>
          if prefix old s
          then new ++ replace_from old new (String.length old - 1) s'
          else String c (replace_from old new 0 s')
      end
  end.

Fixpoint intersperse (new s : string) : string :=
  match s with
  | EmptyString => new
  | String c s' => new ++ String c (intersperse new s')
  end.

Definition replace (old new s : string) : string :=
  match old with
  | EmptyString => intersperse new s
  | _ => replace_from old new 0 s
  end.

(** [str(n)] for an integer *)
Definition of_Z (n : Z) : string :=
  DecimalString.NilZero.string_of_int (Z.to_int n).

(** ["%02d" % n], the two-digit fields of [strftime] *)
Definition pad2 (n : Z) : string :=
  if (0 <=? n)%Z && (n <? 10)%Z then "0" ++ of_Z n else of_Z n.

End PyStr.

(** A string that does not begin with whitespace. *)
Definition no_lead (s : string) : Prop :=
  match s with
  | EmptyString => True
  | String c _ => PyStr.isspace c = false
  end.

(** ** Helper functions *)

(** [clean_filename(text)] *)
Definition clean_filename (text : string) : string :=
  let text := PyStr.replace "\" "-" (PyStr.replace "/" "-" text) in
  PyStr.strip
    (PyStr.filter_chars
       (fun c => PyStr.isalnum c
                 || Ascii.eqb c " " || Ascii.eqb c "-" || Ascii.eqb c "_")
       text).

(** [escape_rtf(text)]; [None] is a missing value ([pd.isna]). *)
Definition escape_rtf (text : option string) : string :=
  match text with
  | None => ""
  | Some text =>
      PyStr.replace "}" "\}" (PyStr.replace "{" "\{" (PyStr.replace "\" "\\" text))
  end.

(** The escape of one character, and a reader of escaped markup that
    takes the character after a backslash literally. *)
Definition escape_char (c : ascii) : string :=
  if Ascii.eqb c "\" then "\\"
  else if Ascii.eqb c "{" then "\{"
  else if Ascii.eqb c "}" then "\}"
  else String c EmptyString.

Fixpoint escape_each (s : string) : string :=
  match s with
  | EmptyString => EmptyString
  | String c s' => escape_char c ++ escape_each s'
  end.

Fixpoint unescape_rtf (s : string) : string :=
  match s with
  | EmptyString => EmptyString
  | String c s' =>
      if Ascii.eqb c "\" then
        match s' with
        | EmptyString => String c EmptyString
        | String d s'' => String d (unescape_rtf s'')
        end
      else String c (unescape_rtf s')
  end.

(** ** Data model *)

(** A row of the judges table.  [jNumber = None] is a missing number. *)
Record Judge := mkJudge {
  jNumber : option Z;
  jName : string;
  jCategory : string;
  jType : string;
  jPrint : bool
}.

(** The judges DataFrame: its rows in positional order, and whether it
    has a ['Number'] column at all (a frame built from an import has
    none until placeholders are concatenated or numbers are assigned). *)
Record JudgeFrame := mkFrame {
  has_Number : bool;
  records : list Judge
}.

(** A row of the competitors table. *)
Record Competitor := mkCompetitor {
  cNumber : option Z;
  cName : string;
  cDirector : option string;
  cPrint : bool
}.

Record ContestContext := mkContext {
  district : string;
  session : string;
  date : string
}.

(** ** Roster normalizer *)

Definition categories : list string := ["MUS"; "PER"; "SNG"].

(** [(df['Category'] == cat) & (df['Type'] == ty)] on one row *)
Definition mask (cat ty : string) (r : Judge) : bool :=
  String.eqb (jCategory r) cat && String.eqb (jType r) ty.

Definition count_rows (m : Judge -> bool) (df : list Judge) : nat :=
  length (filter m df).

Definition absent_judge (cat : string) : Judge :=
  {| jName := "Absent " ++ cat ++ " Judge";
     jCategory := cat;
     jType := "Official";
     jPrint := false;
     jNumber := Some 0%Z |}.

(** The first loop of [balance_and_sort_judges]. *)
Definition max_official (df : list Judge) : nat :=
  fold_left
    (fun max_count cat =>
       let count := count_rows (mask cat "Official") df in
       if Nat.ltb max_count count then count else max_count)
    categories 0.

(** The second loop: the placeholder rows, category by category. *)
Definition new_rows (df : list Judge) : list Judge :=
  let max_count := max_official df in
  if Nat.ltb 0 max_count then
    flat_map
      (fun cat =>
         let current_count := count_rows (mask cat "Official") df in
         let diff := max_count - current_count in
         if Nat.ltb 0 diff then repeat (absent_judge cat) diff else [])
      categories
  else [].

(** [balance_and_sort_judges(df)]; the concatenated frame has the
    ['Number'] column of the placeholder rows. *)
Definition balance_and_sort_judges (df : JudgeFrame) : JudgeFrame :=
  match new_rows (records df) with
  | [] => df
  | rows => {| has_Number := true; records := records df ++ rows |}
  end.

(** Step 1 of [calculate_numbers]: clean data. *)
Definition clean_row (r : Judge) : Judge :=
  {| jNumber := jNumber r;
     jName := jName r;
     jCategory := PyStr.strip (PyStr.upper (jCategory r));
     jType := PyStr.strip (PyStr.title (jType r));
     jPrint := jPrint r |}.

(** Step 2: the sorting helpers. *)
Definition Sort_Last_Name (r : Judge) : string :=
  let x := PyStr.strip (jName r) in
  if Nat.ltb 0 (String.length x) then last (PyStr.split x) "" else "".

Definition cat_sorter (cat : string) : option Z :=
  if String.eqb cat "MUS" then Some 0%Z
  else if String.eqb cat "PER" then Some 1%Z
  else if String.eqb cat "SNG" then Some 2%Z
  else None.

Definition type_sorter (ty : string) : option Z :=
  if String.eqb ty "Official" then Some 0%Z
  else if String.eqb ty "Practice" then Some 1%Z
  else None.

Definition fillna (d : Z) (x : option Z) : Z :=
  match x with Some v => v | None => d end.

Definition Sort_Cat (r : Judge) : Z := fillna 99 (cat_sorter (jCategory r)).
Definition Sort_Type (r : Judge) : Z := fillna 99 (type_sorter (jType r)).

Definition sort_key (r : Judge) : Z * Z * string :=
  (Sort_Cat r, Sort_Type r, Sort_Last_Name r).

(** Step 3: [sort_values] on several columns orders the rows by the
    tuple of keys, lexicographically, and keeps rows of equal keys in
    their prior order. *)
Definition key_leb (a b : Z * Z * string) : bool :=
  let '(c1, t1, n1) := a in
  let '(c2, t2, n2) := b in
  if (c1 <? c2)%Z then true
  else if (c2 <? c1)%Z then false
  else if (t1 <? t2)%Z then true
  else if (t2 <? t1)%Z then false
  else String.leb n1 n2.

Arguments key_leb : simpl never.
Arguments sort_key : simpl never.

Fixpoint insert_row (r : Judge) (df : list Judge) : list Judge :=
  match df with
  | [] => [r]
  | r' :: df' =>
      if key_leb (sort_key r) (sort_key r') then r :: df
      else r' :: insert_row r df'
  end.

Fixpoint sort_values (df : list Judge) : list Judge :=
  match df with
  | [] => []
  | r :: df' => insert_row r (sort_values df')
  end.

(** Step 4: numbering.  [df.loc[m, 'Number'] = range(start, ...)] gives
    the masked rows consecutive numbers in row order. *)
Definition set_Number (n : option Z) (r : Judge) : Judge :=
  {| jNumber := n;
     jName := jName r;
     jCategory := jCategory r;
     jType := jType r;
     jPrint := jPrint r |}.

Fixpoint assign_range (m : Judge -> bool) (start : Z) (df : list Judge)
  : list Judge :=
  match df with
  | [] => []
  | r :: df' =>
      if m r then set_Number (Some start) r :: assign_range m (start + 1) df'
      else r :: assign_range m start df'
  end.

(** One turn of the loop over [cat_order]; the state is the frame and
    [current_official_num]. *)
Definition number_category (st : list Judge * Z) (cat : string)
  : list Judge * Z :=
  let '(df, current_official_num) := st in
  let mask_official := mask cat "Official" in
  let count_official := count_rows mask_official df in
  let '(df, current_official_num) :=
    if Nat.ltb 0 count_official
    then (assign_range mask_official current_official_num df,
          (current_official_num + Z.of_nat count_official)%Z)
    else (df, current_official_num) in
  let mask_practice := mask cat "Practice" in
  let count_practice := count_rows mask_practice df in
  let df :=
    if Nat.ltb 0 count_practice then assign_range mask_practice 50 df else df in
  (df, current_official_num).

Definition cat_order : list string := ["MUS"; "PER"; "SNG"].

Definition assign_numbers (df : list Judge) : list Judge :=
  fst (fold_left number_category cat_order (df, 1%Z)).

(** [calculate_numbers(df)] *)
Definition calculate_numbers (df : JudgeFrame) : JudgeFrame :=
  let rows := map clean_row (records df) in
  let rows := sort_values rows in
  let rows :=
    if has_Number df then rows else map (set_Number (Some 0%Z)) rows in
  {| has_Number := true; records := assign_numbers rows |}.

(** ** Vocabulary of the roster properties *)

(** Python's [range(start, start + n)]. *)
Definition py_range (start : Z) (n : nat) : list Z :=
  map (fun i => (start + Z.of_nat i)%Z) (seq 0 n).
Arguments py_range : simpl never.

(** The row without its number: what numbering must leave alone. *)
Definition unnumbered (r : Judge) : Judge := set_Number None r.

(** A row predicate that does not look at the number. *)
Definition shape_only (m : Judge -> bool) : Prop :=
  forall a b, unnumbered a = unnumbered b -> m a = m b.

(** The Official rows of the categories [cs], category by category. *)
Definition officials_of (cs : list string) (df : list Judge) : list Judge :=
  flat_map (fun cat => filter (mask cat "Official") df) cs.

Definition practice_of (cat : string) (df : list Judge) : list Judge :=
  filter (mask cat "Practice") df.

(** The rows of the result of [calculate_numbers], before numbering. *)
Definition prepared (df : JudgeFrame) : list Judge :=
  let rows := sort_values (map clean_row (records df)) in
  if has_Number df then rows else map (set_Number (Some 0%Z)) rows.


Definition key_le (a b : Z * Z * string) : Prop := key_leb a b = true.

(** The frame is in the order [sort_values] produces. *)
Definition sorted_frame (df : list Judge) : Prop :=
  Sorted key_le (map sort_key df).

(** Two rows that agree except, possibly, for a number the loop is
    still to overwrite ([D] marks those rows). *)
Definition differ (D : Judge -> bool) (a b : Judge) : Prop :=
  unnumbered a = unnumbered b /\ (D a = false -> jNumber a = jNumber b).

Definition in_loop_masks (cs : list string) (r : Judge) : bool :=
  existsb (fun cat => mask cat "Official" r || mask cat "Practice" r) cs.

Definition cleaned (r : Judge) : Prop := clean_row r = r.

(** The judge row as the frame property words it: category in upper
    case and type in title case, nothing else touched. *)
Definition case_normalized (r : Judge) : Judge :=
  {| jNumber := jNumber r;
     jName := jName r;
     jCategory := PyStr.upper (jCategory r);
     jType := PyStr.title (jType r);
     jPrint := jPrint r |}.

(** ** PDF pages and transformations (the part of pypdf the program uses) *)

(** A [Transformation] is its matrix [(a, b, c, d, e, f)]; it sends the
    point [(x, y)] to [(a x + c y + e, b x + d y + f)]. *)
Record Transformation := mkCtm {
  ctm_a : Q; ctm_b : Q; ctm_c : Q; ctm_d : Q; ctm_e : Q; ctm_f : Q
}.

(** [Transformation()] *)
Definition Transformation_id : Transformation := mkCtm 1 0 0 1 0 0.

(** [matrix_multiply(t.matrix, m.matrix)]: [t] first, then [m]. *)
Definition transform (t m : Transformation) : Transformation :=
  mkCtm (ctm_a t * ctm_a m + ctm_b t * ctm_c m)
        (ctm_a t * ctm_b m + ctm_b t * ctm_d m)
        (ctm_c t * ctm_a m + ctm_d t * ctm_c m)
        (ctm_c t * ctm_b m + ctm_d t * ctm_d m)
        (ctm_e t * ctm_a m + ctm_f t * ctm_c m + ctm_e m)
        (ctm_e t * ctm_b m + ctm_f t * ctm_d m + ctm_f m).

(** [t.scale(sx, sy)] *)
Definition scale (sx sy : Q) (t : Transformation) : Transformation :=
  transform t (mkCtm sx 0 0 sy 0 0).

(** [t.translate(tx, ty)] *)
Definition translate (tx ty : Q) (t : Transformation) : Transformation :=
  mkCtm (ctm_a t) (ctm_b t) (ctm_c t) (ctm_d t) (ctm_e t + tx) (ctm_f t + ty).

(** Cosine and sine of a multiple of 90 degrees, the only rotations the
    program asks for ([rotate(180)]); they are exact.  Other angles are
    outside the model and rotate by nothing. *)
Definition cos_sin_deg (rotation : Z) : Q * Q :=
  let r := (rotation mod 360)%Z in
  if (r =? 90)%Z then (0, 1)%Q
  else if (r =? 180)%Z then (- (1), 0)%Q
  else if (r =? 270)%Z then (0, - (1))%Q
  else (1, 0)%Q.

(** [t.rotate(rotation)] *)
Definition rotate (rotation : Z) (t : Transformation) : Transformation :=
  let '(c, s) := cos_sin_deg rotation in
  transform t (mkCtm c s (- s) c 0 0).

(** [t.apply_on(pt)] *)
Definition apply_on (t : Transformation) (pt : Q * Q) : Q * Q :=
  let '(x, y) := pt in
  (ctm_a t * x + ctm_c t * y + ctm_e t,
   ctm_b t * x + ctm_d t * y + ctm_f t)%Q.

(** What [get_page_data] collects for one judge and one competitor. *)
Record PageData := mkPageData {
  pd_district : string;
  pd_session : string;
  pd_date : string;
  comp_name : string;
  comp_num : option Z;
  director : option string;
  judge_name : string;
  judge_num : option Z
}.

(** What a page shows: the artwork of a template page, or the text
    [create_overlay] draws for one judge and competitor. *)
Inductive Content :=
| TemplateArt (t_name : string) (i_page : nat)
| OverlayText (data : PageData) (is_short : bool).

(** A page: its mediabox and its content streams, each under the
    transformation accumulated for it. *)
Record Page := mkPage {
  mediabox_width : Q;
  mediabox_height : Q;
  contents : list (Content * Transformation)
}.

(** [page.add_transformation(op)]: [op] is applied after what the
    page's content already carries; the mediabox stays. *)
Definition add_transformation (op : Transformation) (page : Page) : Page :=
  {| mediabox_width := mediabox_width page;
     mediabox_height := mediabox_height page;
     contents := map (fun '(c, t) => (c, transform t op)) (contents page) |}.

(** [target.merge_page(overlay)]: the overlay's content above the
    target's, on the target's mediabox. *)
Definition merge_page (target overlay : Page) : Page :=
  {| mediabox_width := mediabox_width target;
     mediabox_height := mediabox_height target;
     contents := contents target ++ contents overlay |}.

Definition is_zero (q : Q) : bool := Qeq_bool q 0.

(** [apply_margin_to_page(page, margin_inch)]; [None] is the
    ZeroDivisionError of a page without width or height. *)
Definition apply_margin_to_page (page : Page) (margin_inch : Q) : option Page :=
  let margin_pt := (margin_inch * 72)%Q in
  let width := mediabox_width page in
  let height := mediabox_height page in
  let safe_width := (width - 2 * margin_pt)%Q in
  let safe_height := (height - 2 * margin_pt)%Q in
  if is_zero width || is_zero height then None
  else
    let scale_x := (safe_width / width)%Q in
    let scale_y := (safe_height / height)%Q in
    let s := Qmin scale_x scale_y in
    let tx := ((width - width * s) / 2)%Q in
    let ty := ((height - height * s) / 2)%Q in
    let op := translate tx ty (scale s s Transformation_id) in
    Some (add_transformation op page).

Definition default_margin_inch : Q := 1 # 4.

(** ** Overlay and page composition *)

(** [get_page_data(judge, comp, contest_info)] *)
Definition get_page_data (judge : Judge) (comp : Competitor)
           (contest_info : ContestContext) : PageData :=
  {| pd_district := district contest_info;
     pd_session := session contest_info;
     pd_date := date contest_info;
     comp_name := cName comp;
     comp_num := cNumber comp;
     director := cDirector comp;
     judge_name := jName judge;
     judge_num := jNumber judge |}.

(** The single page of [create_overlay(data, is_short)]: a letter-size
    canvas with the text lines of one judge and competitor. *)
Definition create_overlay (data : PageData) (is_short : bool) : Page :=
  {| mediabox_width := 612;
     mediabox_height := 792;
     contents := [(OverlayText data is_short, Transformation_id)] |}.

(** ** Configuration *)

Definition FORMAT_MAPPING : list (string * list string) :=
  [("MUS", ["MUS_Long.pdf"; "MUS_Short.pdf"]);
   ("PER", ["PER_Long.pdf"; "PER_Short.pdf"]);
   ("SNG", ["SNG_Long.pdf"; "SNG_Short.pdf"])].

Definition CAT_FULL_NAMES : list (string * string) :=
  [("MUS", "Musicality"); ("PER", "Performance"); ("SNG", "Singing")].

(** [d.get(key, default)] *)
Fixpoint dict_get {V} (d : list (string * V)) (key : string) (default : V) : V :=
  match d with
  | [] => default
  | (k, v) :: d' => if String.eqb k key then v else dict_get d' key default
  end.

(** The template directory: the pages of the PDF stored under a file
    name, when there is such a file. *)
Definition TemplateDir := string -> option (list Page).

(** ** Document assembler *)

(** A raised exception is [None]; every generation action catches it
    at its top. *)
Notation "x <- e ;; k" :=
  (match e with Some x => k | None => None end)
    (at level 61, e at next level, right associativity, only parsing).

Fixpoint mapM {A B} (f : A -> option B) (l : list A) : option (list B) :=
  match l with
  | [] => Some []
  | a :: l' => b <- f a ;; bs <- mapM f l' ;; Some (b :: bs)
  end.

(** [range(start, stop, step)] for a positive step; [fuel] bounds the
    number of elements. *)
Fixpoint range_from (fuel start stop step : nat) : list nat :=
  match fuel with
  | O => []
  | S fuel' =>
      if Nat.ltb start stop
      then start :: range_from fuel' (start + step) stop step
      else []
  end.

Definition py_range3 (start stop step : nat) : list nat :=
  range_from stop start stop step.

Definition enumerate {A} (l : list A) : list (nat * A) :=
  combine (seq 0 (length l)) l.

(** [judge['Number'] == 0] *)
Definition Number_is_zero (n : option Z) : bool :=
  match n with
  | Some z => (z =? 0)%Z
  | None => false
  end.

(** The transformation of the second slot of a short-form page:
    [Transformation().rotate(180).translate(tx=612, ty=792)]. *)
Definition second_slot_op : Transformation :=
  translate 612 792 (rotate 180 Transformation_id).

(** One turn of the short-form loop: the page for [comp1] and, when
    there is one, [comp2], on a fresh copy of the template's page. *)
Definition short_form_page (templates : TemplateDir) (t_name : string)
           (judge : Judge) (comp1 : Competitor) (comp2 : option Competitor)
           (contest_context : ContestContext) : option Page :=
  reader <- templates t_name ;;
  base <- nth_error reader 0 ;;
  let target_page := base in
  let data1 := get_page_data judge comp1 contest_context in
  overlay1 <- apply_margin_to_page (create_overlay data1 true)
                                   default_margin_inch ;;
  let target_page := merge_page target_page overlay1 in
  match comp2 with
  | Some comp2 =>
      let data2 := get_page_data judge comp2 contest_context in
      overlay2 <- apply_margin_to_page (create_overlay data2 true)
                                       default_margin_inch ;;
      let overlay2 := add_transformation second_slot_op overlay2 in
      Some (merge_page target_page overlay2)
  | None => Some target_page
  end.

(** The short-form loop [for i in range(0, len(competitor_list), 2)]. *)
Definition short_form_pages (templates : TemplateDir) (t_name : string)
           (judge : Judge) (competitor_list : list Competitor)
           (contest_context : ContestContext) : option (list Page) :=
  mapM (fun i =>
          comp1 <- nth_error competitor_list i ;;
          comp2 <- (if Nat.ltb (i + 1) (length competitor_list)
                    then c <- nth_error competitor_list (i + 1) ;; Some (Some c)
                    else Some None) ;;
          short_form_page templates t_name judge comp1 comp2 contest_context)
       (py_range3 0 (length competitor_list) 2).

(** The long-form loop: every page of the template for every
    competitor, the overlay merged onto the first page only. *)
Definition long_form_pages (templates : TemplateDir) (t_name : string)
           (judge : Judge) (competitor_list : list Competitor)
           (contest_context : ContestContext) : option (list Page) :=
  per_comp <-
    mapM (fun comp =>
            let page_data := get_page_data judge comp contest_context in
            let overlay := create_overlay page_data false in
            template_reader <- templates t_name ;;
            mapM (fun '(i_page, page) =>
                    let target_page := page in
                    if Nat.eqb i_page 0 then
                      info_page <- apply_margin_to_page overlay
                                                        default_margin_inch ;;
                      Some (merge_page target_page info_page)
                    else Some target_page)
                 (enumerate template_reader))
         competitor_list ;;
  Some (concat per_comp).

Definition exists_file (templates : TemplateDir) (t_name : string) : bool :=
  match templates t_name with Some _ => true | None => false end.

(** Option 1, the template loop of one judge: the pages of the
    judge's packet. *)
Fixpoint judge_templates (templates : TemplateDir) (t_names : list string)
         (judge : Judge) (competitor_list : list Competitor)
         (contest_context : ContestContext) : option (list Page) :=
  match t_names with
  | [] => Some []
  | t_name :: rest =>
      if negb (PyStr.contains "Long" t_name) then
        judge_templates templates rest judge competitor_list contest_context
      else if negb (exists_file templates t_name) then
        judge_templates templates rest judge competitor_list contest_context
      else
        let is_short := PyStr.contains "Short" t_name in
        pages <-
          (if is_short then
             base <- templates t_name ;;
             _ <- nth_error base 0 ;;
             short_form_pages templates t_name judge competitor_list
                              contest_context
           else
             long_form_pages templates t_name judge competitor_list
                             contest_context) ;;
        more <- judge_templates templates rest judge competitor_list
                                contest_context ;;
        Some (pages ++ more)
  end.

Definition pdf_name (safe_session middle safe_date : string) : string :=
  (safe_session ++ "_" ++ middle ++ "_" ++ safe_date ++ ".pdf")%string.

(** Option 1, the loop over the active judges: [generated_pdfs]. *)
Fixpoint judge_packets (templates : TemplateDir) (active_judges : list Judge)
         (competitor_list : list Competitor) (contest_context : ContestContext)
         (safe_session safe_date : string)
  : option (list (string * list Page)) :=
  match active_judges with
  | [] => Some []
  | judge :: rest =>
      let continue :=
        judge_packets templates rest competitor_list contest_context
                      safe_session safe_date in
      if Number_is_zero (jNumber judge) then continue
      else
        let cat := jCategory judge in
        match dict_get FORMAT_MAPPING cat [] with
        | [] => continue
        | t_names =>
            writer <- judge_templates templates t_names judge competitor_list
                                      contest_context ;;
            generated_pdfs <- continue ;;
            if Nat.ltb 0 (length writer) then
              let safe_judge := clean_filename (jName judge) in
              Some ((pdf_name safe_session safe_judge safe_date, writer)
                      :: generated_pdfs)
            else Some generated_pdfs
        end
  end.

(** Option 2, the judges of one category on one template: the pages of
    the category file. *)
Fixpoint category_pages (templates : TemplateDir) (t_name : string)
         (is_short : bool) (cat_judges : list Judge)
         (competitor_list : list Competitor) (contest_context : ContestContext)
  : option (list Page) :=
  match cat_judges with
  | [] => Some []
  | judge :: rest =>
      if Number_is_zero (jNumber judge) then
        category_pages templates t_name is_short rest competitor_list
                       contest_context
      else
        pages <-
          (if is_short then
             short_form_pages templates t_name judge competitor_list
                              contest_context
           else
             long_form_pages templates t_name judge competitor_list
                             contest_context) ;;
        more <- category_pages templates t_name is_short rest competitor_list
                               contest_context ;;
        Some (pages ++ more)
  end.

(** Option 2, the loop over the formats of one category. *)
Fixpoint category_formats (templates : TemplateDir) (formats : list string)
         (cat_judges : list Judge) (competitor_list : list Competitor)
         (contest_context : ContestContext) (safe_session safe_date : string)
  : option (list (string * list Page)) :=
  match formats with
  | [] => Some []
  | t_name :: rest =>
      let continue :=
        category_formats templates rest cat_judges competitor_list
                         contest_context safe_session safe_date in
      if negb (exists_file templates t_name) then continue
      else
        let is_short := PyStr.contains "Short" t_name in
        writer <- category_pages templates t_name is_short cat_judges
                                 competitor_list contest_context ;;
        entries <- continue ;;
        if Nat.ltb 0 (length writer) then
          let format_suffix := PyStr.replace ".pdf" "" t_name in
          Some ((pdf_name safe_session format_suffix safe_date, writer)
                  :: entries)
        else Some entries
  end.

Definition Print_is_True (j : Judge) : bool := jPrint j.

Definition Category_is (cat : string) (j : Judge) : bool :=
  String.eqb (jCategory j) cat.

(** Option 2, the loop over [FORMAT_MAPPING.items()]: the entries of
    the archive. *)
Fixpoint category_files (templates : TemplateDir)
         (cats : list (string * list string)) (active_judges : list Judge)
         (competitor_list : list Competitor) (contest_context : ContestContext)
         (safe_session safe_date : string)
  : option (list (string * list Page)) :=
  match cats with
  | [] => Some []
  | (cat, formats) :: rest =>
      let continue :=
        category_files templates rest active_judges competitor_list
                       contest_context safe_session safe_date in
      let cat_judges := filter (Category_is cat) active_judges in
      match cat_judges with
      | [] => continue
      | _ =>
          files <- category_formats templates formats cat_judges
                                    competitor_list contest_context
                                    safe_session safe_date ;;
          more <- continue ;;
          Some (files ++ more)
      end
  end.

(** ** The generation actions *)

Record Date := mkDate { year : Z; month : Z; day : Z }.

(** [c_date_obj.strftime("%m/%d/%Y")] *)
Definition strftime_mdY (d : Date) : string :=
  (PyStr.pad2 (month d) ++ "/" ++ PyStr.pad2 (day d) ++ "/"
   ++ PyStr.of_Z (year d))%string.

(** What an action hands to the user. *)
Inductive Outcome :=
| st_error (msg : string)
| st_warning (msg : string)
| st_exception
| download_pdf (fname : string) (pages : list Page)
| download_zip (fname : string) (entries : list (string * list Page)).

Definition is_empty {A} (df : list A) : bool :=
  match df with [] => true | _ => false end.


(** Option 1, inside the [try]: [generated_pdfs]. *)
Definition by_judge_pdfs (templates : TemplateDir) (contest_context : ContestContext)
           (safe_session safe_date : string)
           (final_judges : list Judge) (final_competitors : list Competitor)
  : option (list (string * list Page)) :=
  let active_judges := filter Print_is_True final_judges in
  let active_competitors := filter cPrint final_competitors in
  let competitor_list := active_competitors in
  if is_empty active_judges || is_empty active_competitors then Some []
  else judge_packets templates active_judges competitor_list contest_context
                     safe_session safe_date.

(** Option 1: "Generate PDFs for each Judge". *)
Definition option1_by_judge (templates : TemplateDir)
           (c_district c_session : string) (c_date_obj : Date)
           (final_judges : list Judge) (final_competitors : list Competitor)
  : Outcome :=
  let has_judges := negb (is_empty final_judges) in
  let formatted_date := strftime_mdY c_date_obj in
  let contest_context :=
    {| district := c_district; session := c_session; date := formatted_date |} in
  let safe_session := clean_filename c_session in
  let safe_date := clean_filename formatted_date in
  if String.eqb c_district "" then st_error "Please fill in District."
  else if has_judges && negb (is_empty final_competitors) then
    let active_judges := filter Print_is_True final_judges in
    let active_competitors := filter cPrint final_competitors in
    if is_empty active_judges || is_empty active_competitors then
      st_warning "Please select at least one Judge and one Competitor."
    else
      match by_judge_pdfs templates contest_context safe_session safe_date
                          final_judges final_competitors with
      | None => st_exception
      | Some [] => st_warning "No files generated."
      | Some [(fname, data)] => download_pdf fname data
      | Some generated_pdfs =>
          download_zip (safe_session ++ "_Judge_Packets.zip")%string
                       generated_pdfs
      end
  else st_error "Missing Data".

(** Option 2, inside the [try]: the entries written to the archive. *)
Definition by_category_files (templates : TemplateDir)
           (contest_context : ContestContext) (safe_session safe_date : string)
           (final_judges : list Judge) (final_competitors : list Competitor)
  : option (list (string * list Page)) :=
  let active_judges := filter Print_is_True final_judges in
  let active_competitors := filter cPrint final_competitors in
  let competitor_list := active_competitors in
  category_files templates FORMAT_MAPPING active_judges competitor_list
                 contest_context safe_session safe_date.

(** ** Label generators *)

(** [int(float(n))] shown as text, or the raw missing value. *)
Definition show_number (n : option Z) : string :=
  match n with
  | Some z => PyStr.of_Z z
  | None => "nan"
  end.

(** [judge['Number'] != 0] *)
Definition Number_not_zero (j : Judge) : bool :=
  negb (Number_is_zero (jNumber j)).

(** The lines [generate_rtf_content] appends for one judge and one
    competitor, before the page break. *)
Definition label_block (judge : Judge) (comp : Competitor)
           (context : ContestContext) : list string :=
  let j_num := show_number (jNumber judge) in
  let c_num := show_number (cNumber comp) in
  let c_name_text := (c_num ++ ". " ++ cName comp)%string in
  let ctx_line :=
    (district context ++ " - " ++ session context ++ ", " ++ date context)%string in
  let c_line_rtf := escape_rtf (Some c_name_text) in
  let c_line_rtf :=
    if PyStr.contains "Chorus" (session context) then
      match cDirector comp with
      | Some director_val =>
          if negb (String.eqb (PyStr.strip director_val) "")
          then (c_line_rtf ++ "\line " ++ escape_rtf (Some director_val))%string
          else c_line_rtf
      | None => c_line_rtf
      end
    else c_line_rtf in
  [("\pard\qr\b\fs32 " ++ escape_rtf (Some (jName judge)) ++ " - \fs72 "
    ++ j_num ++ "\b0\fs24\par")%string;
   ("\pard\ql " ++ c_line_rtf ++ "\par")%string;
   ("\pard\qc " ++ escape_rtf (Some ctx_line) ++ "\par")%string;
   "\pard\par"].

(** [generate_rtf_content(judges_df, competitors_df, context)]; the
    state of the two loops is the list [rtf] and [current_count]. *)
Definition generate_rtf_content (judges_df : list Judge)
           (competitors_df : list Competitor) (context : ContestContext)
  : string :=
  let rtf :=
    ["{\rtf1\ansi\deff0\nouicompat{\fonttbl{\f0\fnil\fcharset0 Arial;}}";
     "{\colortbl ;\red0\green0\blue0;}";
     "\viewkind4\uc1\pard\sa200\sl276\slmult1\f0\fs24\lang9 "] in
  let comp_list := competitors_df in
  let valid_judges := filter Number_not_zero judges_df in
  let total_items := length comp_list * length valid_judges in
  let '(rtf, _) :=
    fold_left
      (fun st judge =>
         fold_left
           (fun st comp =>
              let '(rtf, current_count) := st in
              let current_count := current_count + 1 in
              let rtf := rtf ++ label_block judge comp context in
              let rtf :=
                if Nat.ltb current_count total_items
                then rtf ++ ["\page "] else rtf in
              (rtf, current_count))
           comp_list st)
      valid_judges (rtf, 0) in
  String.concat "" (rtf ++ ["}"]).

(** The five lines of one folder label. *)
Definition folder_cell (j : Judge) (context : ContestContext) : list string :=
  let c_short := jCategory j in
  let c_full := dict_get CAT_FULL_NAMES c_short c_short in
  [("\b\f0\fs28 " ++ escape_rtf (Some (jName j)) ++ "\b0\par")%string;
   ("\fs22 " ++ escape_rtf (Some (c_full ++ " Category")) ++ "\par")%string;
   ("\fs20 " ++ escape_rtf (Some (session context)) ++ "\par")%string;
   (escape_rtf (Some (district context)) ++ "\par")%string;
   escape_rtf (Some (date context))].

(** One table row of folder labels: [j1], the gutter, and [j2] or a
    blank cell. *)
Definition folder_row (j1 : Judge) (j2 : option Judge)
           (context : ContestContext) : list string :=
  ["\trowd\trgaph108\trleft0\trrh2880";
   "\clvertalc\brdrt\brdrnil\brdrl\brdrnil\brdrb\brdrnil\brdrr\brdrnil\cellx5760";
   "\clvertalc\brdrt\brdrnil\brdrl\brdrnil\brdrb\brdrnil\brdrr\brdrnil\cellx6030";
   "\clvertalc\brdrt\brdrnil\brdrl\brdrnil\brdrb\brdrnil\brdrr\brdrnil\cellx11790";
   "\pard\intbl\qc\sa0\sb0"]
  ++ folder_cell j1 context
  ++ ["\cell"; "\pard\intbl\cell"]
  ++ match j2 with
     | Some j2 => "\pard\intbl\qc\sa0\sb0" :: folder_cell j2 context
     | None => ["\pard\intbl"]
     end
  ++ ["\cell"; "\row"].

(** [generate_folder_labels_rtf(judges_df, context)]; [None] is an
    index out of range. *)
Definition generate_folder_labels_rtf (judges_df : list Judge)
           (context : ContestContext) : option string :=
  let rtf :=
    ["{\rtf1\ansi\deff0\nouicompat\viewkind4\uc1";
     "{\fonttbl{\f0\fnil\fcharset0 Arial;}}";
     "{\colortbl ;\red0\green0\blue0;}";
     "\paperw12240\paperh15840\margl225\margr225\margt720\margb720";
     "\pard\plain\fs20 "] in
  let active_judges := filter Print_is_True judges_df in
  let judges := filter Number_not_zero active_judges in
  let total_judges := length judges in
  rows <-
    mapM (fun i =>
            j1 <- nth_error judges i ;;
            j2 <- (if Nat.ltb (i + 1) total_judges
                   then j <- nth_error judges (i + 1) ;; Some (Some j)
                   else Some None) ;;
            Some (folder_row j1 j2 context))
         (py_range3 0 total_judges 2) ;;
  Some (String.concat "" (rtf ++ concat rows ++ ["}"])).


(** ** Vocabulary of the composition properties *)

(** A one-character pattern is replaced character by character. *)
Fixpoint replace_char (a : ascii) (new s : string) : string :=
  match s with
  | EmptyString => EmptyString
  | String c s' =>
      ((if Ascii.eqb a c then new else String c EmptyString)
       ++ replace_char a new s')%string
  end.

(** The margin transformation of a letter-size overlay under the
    default margin. *)
Definition letter_margin_op : Transformation :=
  let m := (default_margin_inch * 72)%Q in
  let s := Qmin ((612 - 2 * m) / 612) ((792 - 2 * m) / 792) in
  translate ((612 - 612 * s) / 2) ((792 - 792 * s) / 2)
            (scale s s Transformation_id).

(** The transformations under which the two slots of a short-form
    page show their overlays. *)
Definition slot1_ctm : Transformation :=
  transform Transformation_id letter_margin_op.
Definition slot2_ctm : Transformation := transform slot1_ctm second_slot_op.

(** The short-form page as the packing rule words it: the template
    page, the first competitor's overlay, and the second competitor's
    overlay, if any, rotated and translated. *)
Definition two_up_page (base : Page) (judge : Judge) (comp1 : Competitor)
           (comp2 : option Competitor) (contest_context : ContestContext)
  : Page :=
  {| mediabox_width := mediabox_width base;
     mediabox_height := mediabox_height base;
     contents :=
       contents base
       ++ [(OverlayText (get_page_data judge comp1 contest_context) true,
            slot1_ctm)]
       ++ match comp2 with
          | Some comp2 =>
              [(OverlayText (get_page_data judge comp2 contest_context) true,
                slot2_ctm)]
          | None => []
          end |}.

(** The template directory with every file hidden whose name lacks
    "Long". *)
Definition only_long (templates : TemplateDir) : TemplateDir :=
  fun t_name =>
    if PyStr.contains "Long" t_name then templates t_name else None.

(** A packet made of long-form pages alone, template after template. *)
Fixpoint long_packet (templates : TemplateDir) (t_names : list string)
         (judge : Judge) (competitor_list : list Competitor)
         (contest_context : ContestContext) : option (list Page) :=
  match t_names with
  | [] => Some []
  | t_name :: rest =>
      if exists_file templates t_name then
        pages <- long_form_pages templates t_name judge competitor_list
                                 contest_context ;;
        more <- long_packet templates rest judge competitor_list
                            contest_context ;;
        Some (pages ++ more)
      else long_packet templates rest judge competitor_list contest_context
  end.

(** A name with "Long" in it is handled by the long-form branch, as
    long as it does not also have "Short" in it. *)
Definition long_not_short (t_name : string) : Prop :=
  PyStr.contains "Long" t_name = true -> PyStr.contains "Short" t_name = false.


(** The template directory of the scenario: the MUS Long template
    alone, with one page. *)
Definition only_mus_long (base : Page) : TemplateDir :=
  fun t_name => if String.eqb t_name "MUS_Long.pdf" then Some [base] else None.

(** ** Import of the assignments report *)

(** A row of the uploaded CSV: its [Name], [Category] and [Type]
    columns. *)
Record AssignmentRow := mkAssignment {
  aName : string;
  aCategory : string;
  aType : string
}.

(** The judges table built from an uploaded report: categories
    upper-cased and stripped, rows of other categories dropped, every
    row marked for print, then balanced and numbered. *)
Definition import_assignments (raw_df : list AssignmentRow) : JudgeFrame :=
  let raw_df :=
    map (fun a => mkAssignment (aName a)
                               (PyStr.strip (PyStr.upper (aCategory a)))
                               (aType a)) raw_df in
  let clean_df :=
    filter (fun a => existsb (String.eqb (aCategory a)) ["MUS"; "PER"; "SNG"])
           raw_df in
  let clean_df :=
    map (fun a => {| jNumber := None; jName := aName a;
                     jCategory := aCategory a; jType := aType a;
                     jPrint := true |}) clean_df in
  let clean_df :=
    balance_and_sort_judges {| has_Number := false; records := clean_df |} in
  calculate_numbers clean_df.

(** A row the numbering loop has no mask for: its category is not one
    of the three, or its type is neither Official nor Practice. *)
Definition unrecognized (r : Judge) : bool := negb (in_loop_masks cat_order r).

(** The frame as it stands when the numbering loop starts, row by row:
    cleaned, and with number 0 when the frame had no number column. *)
Definition before_numbering (df : JudgeFrame) (r : Judge) : Judge :=
  if has_Number df then clean_row r else set_Number (Some 0%Z) (clean_row r).

(** ** Manual edits: numbers for new rows *)







(** ** File names *)

(** The characters [clean_filename] lets through. *)
Definition filename_char (c : ascii) : bool :=
  PyStr.isalnum c || Ascii.eqb c " " || Ascii.eqb c "-" || Ascii.eqb c "_".

Definition all_chars (p : ascii -> bool) (s : string) : Prop :=
  Forall (fun c => p c = true) (list_ascii_of_string s).

(** ** Vocabulary of the label properties *)

(** The opening lines of the two label documents. *)
Definition contest_labels_header : list string :=
  ["{\rtf1\ansi\deff0\nouicompat{\fonttbl{\f0\fnil\fcharset0 Arial;}}";
   "{\colortbl ;\red0\green0\blue0;}";
   "\viewkind4\uc1\pard\sa200\sl276\slmult1\f0\fs24\lang9 "].

Definition folder_labels_header : list string :=
  ["{\rtf1\ansi\deff0\nouicompat\viewkind4\uc1";
   "{\fonttbl{\f0\fnil\fcharset0 Arial;}}";
   "{\colortbl ;\red0\green0\blue0;}";
   "\paperw12240\paperh15840\margl225\margr225\margt720\margb720";
   "\pard\plain\fs20 "].

(** Blocks with a page break between each two of them. *)
Fixpoint join_pages (blocks : list (list string)) : list string :=
  match blocks with
  | [] => []
  | block :: rest =>
      match rest with
      | [] => block
      | _ => block ++ ["\page "] ++ join_pages rest
      end
  end.

(** A list taken two by two; the last element stands alone when the
    length is odd. *)
Fixpoint pair_up {A} (l : list A) : list (A * option A) :=
  match l with
  | [] => []
  | a :: l' =>
      match l' with
      | [] => [(a, None)]
      | b :: rest => (a, Some b) :: pair_up rest
      end
  end.

(** ** Vocabulary of the packing properties *)


(** A property of every generated document, when generation did not
    raise. *)
Definition every_document (P : string * list Page -> Prop)
           (generated : option (list (string * list Page))) : Prop :=
  match generated with
  | Some docs => Forall P docs
  | None => True
  end.

(** ** Blank forms *)

(** [generate_blank_forms(requests)]; the state of the loops is the
    writer's pages and [pages_added]. *)
Definition generate_blank_forms (templates : TemplateDir)
           (requests : list (string * Z)) : option (list Page) * nat :=
  let '(output_writer, pages_added) :=
    fold_left
      (fun st request =>
         let '(fmt_name, count) := request in
         if (0 <? count)%Z then
           match templates (fmt_name ++ ".pdf")%string with
           | None => st
           | Some reader =>
               fold_left
                 (fun st _ =>
                    fold_left
                      (fun st page =>
                         let '(output_writer, pages_added) := st in
                         (output_writer ++ [page], pages_added + 1))
                      reader st)
                 (seq 0 (Z.to_nat count)) st
           end
         else st)
      requests ([], 0) in
  if Nat.ltb 0 pages_added then (Some output_writer, pages_added)
  else (None, 0).

(** The pages a list of requests asks for: the pages of each template
    that exists, as many times as requested. *)
Definition requested_pages (templates : TemplateDir)
           (requests : list (string * Z)) : list Page :=
  flat_map
    (fun request =>
       match templates (fst request ++ ".pdf")%string with
       | Some reader => concat (repeat reader (Z.to_nat (snd request)))
       | None => []
       end)
    requests.

(** * Properties *)

(** ** Numbering: what [assign_range] does to a frame *)

Lemma py_range_S start n :
  py_range start (S n) = start :: py_range (start + 1) n.
Proof.
  unfold py_range. cbn [seq map]. rewrite Z.add_0_r. f_equal.
  rewrite <- seq_shift, map_map. apply map_ext. intros i. lia.
Qed.

Lemma py_range_app start n k :
  py_range start (n + k) = py_range start n ++ py_range (start + Z.of_nat n) k.
Proof.
  revert start. induction n as [|n IH]; intros start.
  - simpl. now rewrite Z.add_0_r.
  - change (S n + k) with (S (n + k)). rewrite !py_range_S, IH. simpl.
    do 3 f_equal. lia.
Qed.

Lemma py_range_length start n : length (py_range start n) = n.
Proof. unfold py_range. now rewrite length_map, length_seq. Qed.

Lemma In_py_range start n z :
  In z (py_range start n) -> (start <= z < start + Z.of_nat n)%Z.
Proof.
  unfold py_range. rewrite in_map_iff. intros [i [<- Hi]].
  apply in_seq in Hi. lia.
Qed.

Lemma unnumbered_set_Number n r : unnumbered (set_Number n r) = unnumbered r.
Proof. reflexivity. Qed.

Lemma unnumbered_idem r : unnumbered (unnumbered r) = unnumbered r.
Proof. reflexivity. Qed.

Lemma unnumbered_eq_inv a b :
  unnumbered a = unnumbered b -> jNumber a = jNumber b -> a = b.
Proof.
  destruct a, b. unfold unnumbered, set_Number. simpl.
  intros H ?. injection H as -> -> -> ->. now subst.
Qed.

Lemma mask_shape_only cat ty : shape_only (mask cat ty).
Proof.
  intros a b H. unfold mask.
  assert (jCategory a = jCategory b) as -> by exact (f_equal jCategory H).
  assert (jType a = jType b) as -> by exact (f_equal jType H).
  reflexivity.
Qed.

Lemma mask_disjoint c t c' t' r :
  String.eqb c c' && String.eqb t t' = false ->
  mask c t r = true -> mask c' t' r = false.
Proof.
  unfold mask. intros Hne H. apply andb_true_iff in H as [Hc Ht].
  apply String.eqb_eq in Hc, Ht. subst c t. exact Hne.
Qed.

Section AssignRange.

Variable m : Judge -> bool.
Hypothesis m_shape : shape_only m.

Lemma m_set_Number n r : m (set_Number n r) = m r.
Proof. apply m_shape. reflexivity. Qed.

Lemma unnumbered_assign_range start df :
  map unnumbered (assign_range m start df) = map unnumbered df.
Proof.
  revert start. induction df as [|r df IH]; intros start; simpl.
  - reflexivity.
  - destruct (m r); simpl; now rewrite IH.
Qed.

Lemma length_assign_range start df :
  length (assign_range m start df) = length df.
Proof.
  rewrite <- (length_map unnumbered), unnumbered_assign_range.
  apply length_map.
Qed.

(** The masked rows receive [start, start + 1, ...] in row order. *)
Lemma numbers_assign_range start df :
  map jNumber (filter m (assign_range m start df))
  = map Some (py_range start (count_rows m df)).
Proof.
  unfold count_rows. revert start.
  induction df as [|r df IH]; intros start.
  - reflexivity.
  - cbn [assign_range filter]. destruct (m r) eqn:E.
    + cbn [filter]. rewrite m_set_Number, E.
      cbn [length map]. rewrite py_range_S, IH. reflexivity.
    + cbn [filter]. rewrite E. apply IH.
Qed.

(** Rows outside the mask are not touched. *)
Lemma filter_assign_range_other (m' : Judge -> bool) start df :
  shape_only m' ->
  (forall r, m r = true -> m' r = false) ->
  filter m' (assign_range m start df) = filter m' df.
Proof.
  intros Hm' Hdis. revert start.
  induction df as [|r df IH]; intros start; simpl.
  - reflexivity.
  - destruct (m r) eqn:E; simpl.
    + rewrite (Hm' (set_Number (Some start) r) r eq_refl).
      rewrite (Hdis r E). apply IH.
    + now rewrite IH.
Qed.

Lemma count_assign_range (m' : Judge -> bool) start df :
  shape_only m' ->
  count_rows m' (assign_range m start df) = count_rows m' df.
Proof.
  intros Hm'. unfold count_rows. revert start.
  induction df as [|r df IH]; intros start; simpl.
  - reflexivity.
  - destruct (m r) eqn:E; simpl.
    + rewrite (Hm' (set_Number (Some start) r) r eq_refl).
      destruct (m' r); simpl; now rewrite IH.
    + destruct (m' r); simpl; now rewrite IH.
Qed.

Lemma assign_range_none start df :
  count_rows m df = 0 -> assign_range m start df = df.
Proof.
  unfold count_rows. revert start.
  induction df as [|r df IH]; intros start; simpl.
  - reflexivity.
  - destruct (m r) eqn:E; simpl.
    + discriminate.
    + intros H. now rewrite IH.
Qed.

End AssignRange.

(** The two guards [if count > 0] of the loop body skip an assignment
    that would change nothing. *)
Lemma number_category_eq df cur cat :
  number_category (df, cur) cat
  = (assign_range (mask cat "Practice") 50
       (assign_range (mask cat "Official") cur df),
     (cur + Z.of_nat (count_rows (mask cat "Official") df))%Z).
Proof.
  unfold number_category.
  assert (Hskip : forall m start d,
             (if Nat.ltb 0 (count_rows m d) then assign_range m start d else d)
             = assign_range m start d).
  { intros m start d. destruct (count_rows m d) eqn:E.
    - now rewrite assign_range_none.
    - reflexivity. }
  assert (Hoff :
            (if Nat.ltb 0 (count_rows (mask cat "Official") df)
             then (assign_range (mask cat "Official") cur df,
                   (cur + Z.of_nat (count_rows (mask cat "Official") df))%Z)
             else (df, cur))
            = (assign_range (mask cat "Official") cur df,
               (cur + Z.of_nat (count_rows (mask cat "Official") df))%Z)).
  { destruct (count_rows (mask cat "Official") df) eqn:E.
    - rewrite assign_range_none by exact E. now rewrite Z.add_0_r.
    - reflexivity. }
  cbv zeta. rewrite Hoff, Hskip. reflexivity.
Qed.

Lemma cons_eq_inv {A} (a b : A) l l' : a :: l = b :: l' -> a = b /\ l = l'.
Proof. intros H. now injection H. Qed.

Lemma count_rows_shape m l1 l2 :
  shape_only m -> map unnumbered l1 = map unnumbered l2 ->
  count_rows m l1 = count_rows m l2.
Proof.
  intros Hm. unfold count_rows. revert l2.
  induction l1 as [|a l1 IH]; intros [|b l2] H; try discriminate.
  - reflexivity.
  - apply cons_eq_inv in H as [Hab Hl]. simpl.
    rewrite (Hm a b Hab). destruct (m b); simpl; now rewrite (IH l2).
Qed.

Lemma length_officials_of_shape cs l1 l2 :
  map unnumbered l1 = map unnumbered l2 ->
  length (officials_of cs l1) = length (officials_of cs l2).
Proof.
  intros H. unfold officials_of.
  induction cs as [|c cs IH]; simpl.
  - reflexivity.
  - rewrite !length_app, IH. f_equal.
    apply (count_rows_shape _ _ _ (mask_shape_only c "Official") H).
Qed.

Lemma mask_other_category c c' ty ty' r :
  c <> c' -> mask c ty r = true -> mask c' ty' r = false.
Proof.
  intros Hne H. unfold mask in *. apply andb_true_iff in H as [Hc _].
  apply String.eqb_eq in Hc. subst c.
  apply andb_false_iff. left. now apply String.eqb_neq.
Qed.

(** The loop over a list of distinct categories, from any frame and
    any first Official number. *)
Lemma fold_number_category cs :
  NoDup cs ->
  forall df cur,
    let df' := fst (fold_left number_category cs (df, cur)) in
    map unnumbered df' = map unnumbered df
    /\ map jNumber (officials_of cs df')
       = map Some (py_range cur (length (officials_of cs df)))
    /\ Forall (fun cat =>
                 map jNumber (practice_of cat df')
                 = map Some (py_range 50 (length (practice_of cat df)))) cs
    /\ (forall m', shape_only m' ->
          (forall cat ty r, In cat cs -> mask cat ty r = true -> m' r = false) ->
          filter m' df' = filter m' df).
Proof.
  induction 1 as [|c cs Hnotin Hnd IH]; intros df cur.
  - simpl. repeat split; auto.
  - cbn [fold_left]. rewrite number_category_eq.
    set (df1 := assign_range (mask c "Practice") 50
                  (assign_range (mask c "Official") cur df)).
    set (cur1 := (cur + Z.of_nat (count_rows (mask c "Official") df))%Z).
    destruct (IH df1 cur1) as (Hshape & Hoff & Hprac & Hframe).
    set (df' := fst (fold_left number_category cs (df1, cur1))) in *.
    assert (Hshape1 : map unnumbered df1 = map unnumbered df).
    { unfold df1.
      now rewrite !unnumbered_assign_range by apply mask_shape_only. }
    assert (Hkeep : forall ty, filter (mask c ty) df' = filter (mask c ty) df1).
    { intros ty. apply Hframe; [apply mask_shape_only|].
      intros cat ty' r Hin Hm. apply (mask_other_category cat c ty' ty r); auto.
      intros ->. contradiction. }
    cbv zeta. repeat split.
    + now rewrite Hshape.
    + unfold officials_of in *. cbn [flat_map].
      rewrite !map_app, !length_app, py_range_app, map_app. f_equal.
      * rewrite Hkeep. unfold df1.
        rewrite filter_assign_range_other;
          [|apply mask_shape_only
           |intros r; apply mask_disjoint; now rewrite String.eqb_refl].
        apply numbers_assign_range, mask_shape_only.
      * rewrite Hoff. do 2 f_equal.
        apply (length_officials_of_shape cs df1 df Hshape1).
    + constructor.
      * unfold practice_of. rewrite Hkeep. unfold df1.
        rewrite numbers_assign_range by apply mask_shape_only.
        rewrite count_assign_range by apply mask_shape_only.
        reflexivity.
      * eapply Forall_impl; [|exact Hprac]. cbv beta. intros cat ->.
        do 2 f_equal. unfold practice_of.
        apply (count_rows_shape _ _ _ (mask_shape_only cat "Practice") Hshape1).
    + intros m' Hm' Hdis. rewrite Hframe; auto.
      * unfold df1.
        rewrite !filter_assign_range_other; auto using mask_shape_only.
        -- intros r. apply (Hdis c "Official" r). now left.
        -- intros r. apply (Hdis c "Practice" r). now left.
      * intros cat ty r Hin. apply Hdis. now right.
Qed.

Lemma NoDup_cat_order : NoDup cat_order.
Proof.
  unfold cat_order. repeat constructor; simpl; intuition discriminate.
Qed.

Lemma calculate_numbers_eq df :
  calculate_numbers df
  = {| has_Number := true; records := assign_numbers (prepared df) |}.
Proof. reflexivity. Qed.

Lemma calculate_numbers_ranges (df : JudgeFrame) :
  let out := records (calculate_numbers df) in
  map jNumber (officials_of cat_order out)
  = map Some (py_range 1 (length (officials_of cat_order out)))
  /\ Forall (fun cat =>
               map jNumber (practice_of cat out)
               = map Some (py_range 50 (length (practice_of cat out))))
            cat_order.
Proof.
  cbv zeta. rewrite calculate_numbers_eq. cbn [records]. unfold assign_numbers.
  destruct (fold_number_category cat_order NoDup_cat_order (prepared df) 1%Z)
    as (Hshape & Hoff & Hprac & _).
  cbv zeta in Hshape, Hoff, Hprac.
  set (out := fst (fold_left number_category cat_order (prepared df, 1%Z))) in *.
  split.
  - rewrite Hoff. do 2 f_equal. symmetry.
    now apply length_officials_of_shape.
  - eapply Forall_impl; [|exact Hprac]. cbv beta. intros cat ->.
    do 2 f_equal. symmetry. unfold practice_of.
    apply (count_rows_shape _ _ _ (mask_shape_only cat "Practice") Hshape).
Qed.





(** ** Cleaning is idempotent *)

Module PyStrFacts.
Import PyStr.

Lemma char_facts c :
  to_upper (to_upper c) = to_upper c
  /\ to_lower (to_lower c) = to_lower c
  /\ iscased (to_upper c) = iscased c
  /\ iscased (to_lower c) = iscased c
  /\ isspace (to_upper c) = isspace c
  /\ isspace (to_lower c) = isspace c.
Proof.
  destruct c as [[] [] [] [] [] [] [] []]; vm_compute; repeat split.
Qed.

Lemma map_chars_idem f s :
  (forall c, f (f c) = f c) -> map_chars f (map_chars f s) = map_chars f s.
Proof.
  intros Hf. induction s as [|c s IH]; simpl; [reflexivity|].
  now rewrite Hf, IH.
Qed.

Lemma lstrip_map_chars f s :
  (forall c, isspace (f c) = isspace c) ->
  lstrip (map_chars f s) = map_chars f (lstrip s).
Proof.
  intros Hf. induction s as [|c s IH]; simpl; [reflexivity|].
  rewrite Hf. destruct (isspace c); [exact IH|reflexivity].
Qed.

Lemma rstrip_map_chars f s :
  (forall c, isspace (f c) = isspace c) ->
  rstrip (map_chars f s) = map_chars f (rstrip s).
Proof.
  intros Hf. induction s as [|c s IH]; simpl; [reflexivity|].
  rewrite IH, Hf. destruct (rstrip s); simpl; [|reflexivity].
  now destruct (isspace c).
Qed.

Lemma rstrip_idem s : rstrip (rstrip s) = rstrip s.
Proof.
  induction s as [|c s IH]; simpl; [reflexivity|].
  destruct (rstrip s) as [|d r] eqn:E.
  - destruct (isspace c) eqn:Ec; simpl; [reflexivity|]. now rewrite Ec.
  - change (rstrip (String c (String d r)))
      with (match rstrip (String d r) with
            | EmptyString =>
                if isspace c then EmptyString else String c EmptyString
            | x => String c x
            end).
    now rewrite IH.
Qed.

Lemma lstrip_no_lead s : no_lead (lstrip s).
Proof.
  induction s as [|c s IH]; simpl; [exact I|].
  destruct (isspace c) eqn:E; [exact IH|exact E].
Qed.

Lemma no_lead_lstrip s : no_lead s -> lstrip s = s.
Proof. destruct s as [|c s]; simpl; [reflexivity|]. now intros ->. Qed.

Lemma rstrip_no_lead s : no_lead s -> no_lead (rstrip s).
Proof.
  destruct s as [|c s]; simpl; [trivial|]. intros Hc.
  destruct (rstrip s); [now rewrite Hc|exact Hc].
Qed.

Lemma strip_idem s : strip (strip s) = strip s.
Proof.
  unfold strip.
  rewrite (no_lead_lstrip (rstrip (lstrip s))).
  - apply rstrip_idem.
  - apply rstrip_no_lead, lstrip_no_lead.
Qed.

Lemma strip_upper s : strip (upper s) = upper (strip s).
Proof.
  unfold strip, upper.
  rewrite lstrip_map_chars, rstrip_map_chars;
    [reflexivity| |]; intros c; apply char_facts.
Qed.

Lemma upper_idem s : upper (upper s) = upper s.
Proof. apply map_chars_idem. intros c. apply char_facts. Qed.

Lemma space_not_cased c : isspace c = true -> iscased c = false.
Proof.
  destruct c as [[] [] [] [] [] [] [] []]; vm_compute; congruence.
Qed.

Lemma isspace_title_char (b : bool) c :
  isspace (if b then to_lower c else to_upper c) = isspace c.
Proof. destruct b; apply char_facts. Qed.

Lemma iscased_title_char (b : bool) c :
  iscased (if b then to_lower c else to_upper c) = iscased c.
Proof. destruct b; apply char_facts. Qed.

Lemma lstrip_title s : lstrip (title s) = title (lstrip s).
Proof.
  unfold title. induction s as [|c s IH]; simpl; [reflexivity|].
  rewrite (isspace_title_char false).
  destruct (isspace c) eqn:E; [|reflexivity].
  now rewrite (space_not_cased c E).
Qed.

Lemma rstrip_title_from b s :
  rstrip (title_from b s) = title_from b (rstrip s).
Proof.
  revert b. induction s as [|c s IH]; intros b; simpl; [reflexivity|].
  rewrite IH, isspace_title_char. destruct (rstrip s); simpl; [|reflexivity].
  now destruct (isspace c).
Qed.

Lemma title_from_idem b s :
  title_from b (title_from b s) = title_from b s.
Proof.
  revert b. induction s as [|c s IH]; intros b; simpl; [reflexivity|].
  rewrite iscased_title_char, IH. f_equal.
  destruct b; apply char_facts.
Qed.

Lemma strip_title s : strip (title s) = title (strip s).
Proof.
  unfold strip. rewrite lstrip_title. apply rstrip_title_from.
Qed.

(** The two cleaning pipelines of [calculate_numbers] reach a fixed
    point in one application. *)
Lemma clean_category_idem s :
  strip (upper (strip (upper s))) = strip (upper s).
Proof.
  now rewrite (strip_upper (strip (upper s))), strip_idem,
    <- strip_upper, upper_idem.
Qed.

Lemma clean_type_idem s :
  strip (title (strip (title s))) = strip (title s).
Proof.
  rewrite (strip_title (strip (title s))), strip_idem, <- strip_title.
  unfold title at 1. now rewrite title_from_idem.
Qed.

End PyStrFacts.

Lemma clean_row_idem r : clean_row (clean_row r) = clean_row r.
Proof.
  unfold clean_row. simpl.
  now rewrite PyStrFacts.clean_category_idem, PyStrFacts.clean_type_idem.
Qed.

(** ** Sorting *)

Lemma key_leb_total a b : key_leb a b = false -> key_leb b a = true.
Proof.
  destruct a as [[c1 t1] n1], b as [[c2 t2] n2]. unfold key_leb.
  destruct (c1 <? c2)%Z eqn:E1; [discriminate|].
  destruct (c2 <? c1)%Z eqn:E2; [reflexivity|].
  destruct (t1 <? t2)%Z eqn:E3; [discriminate|].
  destruct (t2 <? t1)%Z eqn:E4; [reflexivity|].
  intros H. destruct (String.leb_total n1 n2); congruence.
Qed.

Lemma sort_key_unnumbered r : sort_key (unnumbered r) = sort_key r.
Proof. reflexivity. Qed.

Lemma sort_key_shape l1 l2 :
  map unnumbered l1 = map unnumbered l2 -> map sort_key l1 = map sort_key l2.
Proof.
  intros H.
  transitivity (map sort_key (map unnumbered l1)).
  - now rewrite map_map.
  - now rewrite H, map_map.
Qed.

Lemma insert_row_perm r df : Permutation (insert_row r df) (r :: df).
Proof.
  induction df as [|r' df IH]; simpl.
  - reflexivity.
  - destruct (key_leb (sort_key r) (sort_key r')); [reflexivity|].
    rewrite IH. apply perm_swap.
Qed.

Lemma sort_values_perm df : Permutation (sort_values df) df.
Proof.
  induction df as [|r df IH]; simpl.
  - reflexivity.
  - rewrite insert_row_perm. now constructor.
Qed.

Lemma insert_row_sorted r df :
  sorted_frame df -> sorted_frame (insert_row r df).
Proof.
  unfold sorted_frame. induction df as [|r' df IH]; simpl; intros H.
  - repeat constructor.
  - destruct (key_leb (sort_key r) (sort_key r')) eqn:E; simpl.
    + constructor; [exact H|]. constructor. exact E.
    + inversion H as [|? ? Hs Hhd]; subst.
      constructor; [now apply IH|].
      destruct df as [|r'' df]; simpl.
      * constructor. now apply key_leb_total.
      * destruct (key_leb (sort_key r) (sort_key r'')); constructor.
        -- now apply key_leb_total.
        -- now inversion Hhd.
Qed.

Lemma sort_values_sorted df : sorted_frame (sort_values df).
Proof.
  induction df as [|r df IH]; simpl.
  - constructor.
  - now apply insert_row_sorted.
Qed.

(** A stable sort leaves a sorted frame as it is. *)
Lemma sort_values_fixed df : sorted_frame df -> sort_values df = df.
Proof.
  unfold sorted_frame. induction df as [|r df IH]; simpl; intros H.
  - reflexivity.
  - inversion H as [|? ? Hs Hhd]; subst. rewrite (IH Hs).
    destruct df as [|r' df]; simpl; [reflexivity|].
    inversion Hhd as [|? ? Hle]; subst. unfold key_le in Hle.
    now rewrite Hle.
Qed.

(** ** Numbering depends on the rows' shape only *)

Lemma differ_weaken (D D' : Judge -> bool) l1 l2 :
  (forall r, D' r = false -> D r = false) ->
  Forall2 (differ D) l1 l2 -> Forall2 (differ D') l1 l2.
Proof.
  intros HD H. induction H as [|a b l1 l2 [Hs Hn] _ IH]; constructor; auto.
  split; auto.
Qed.

Lemma differ_shape D l1 l2 :
  Forall2 (differ D) l1 l2 -> map unnumbered l1 = map unnumbered l2.
Proof.
  induction 1 as [|a b l1 l2 [Hs _] _ IH]; simpl; [reflexivity|].
  now rewrite Hs, IH.
Qed.

Lemma differ_none l1 l2 :
  Forall2 (differ (fun _ => false)) l1 l2 -> l1 = l2.
Proof.
  induction 1 as [|a b l1 l2 [Hs Hn] _ IH]; [reflexivity|].
  f_equal; [|exact IH]. apply unnumbered_eq_inv; auto.
Qed.

Lemma assign_range_differ D m start l1 l2 :
  shape_only m ->
  Forall2 (differ D) l1 l2 ->
  Forall2 (differ (fun r => D r && negb (m r)))
          (assign_range m start l1) (assign_range m start l2).
Proof.
  intros Hm H. revert start.
  induction H as [|a b l1 l2 [Hs Hn] _ IH]; intros start; simpl.
  - constructor.
  - rewrite <- (Hm a b Hs). destruct (m a) eqn:E.
    + constructor; [|apply IH]. split; [|reflexivity].
      now rewrite !unnumbered_set_Number.
    + constructor; [|apply IH]. split; [exact Hs|].
      rewrite E, andb_true_r. exact Hn.
Qed.

(** The rows [assign_range] rewrites are those of its mask. *)
Lemma assign_range_frame m start df :
  shape_only m -> Forall2 (differ m) (assign_range m start df) df.
Proof.
  intros Hm. revert start. induction df as [|r df IH]; intros start; simpl.
  - constructor.
  - destruct (m r) eqn:E; constructor; auto; split; auto.
    rewrite (Hm (set_Number (Some start) r) r eq_refl). congruence.
Qed.

Lemma differ_refl D l : Forall2 (differ D) l l.
Proof. induction l; constructor; auto. split; auto. Qed.

Lemma differ_trans (D1 D2 : Judge -> bool) l1 l2 l3 :
  shape_only D2 ->
  Forall2 (differ D1) l1 l2 -> Forall2 (differ D2) l2 l3 ->
  Forall2 (differ (fun r => D1 r || D2 r)) l1 l3.
Proof.
  intros HD2 H12. revert l3.
  induction H12 as [|a b l1 l2 [Hs Hn] _ IH]; intros l3 H23;
    inversion H23 as [|? c ? l3' [Hs' Hn'] H23']; subst; constructor; auto.
  split; [congruence|]. intros H. apply orb_false_iff in H as [H1 H2].
  rewrite (Hn H1). apply Hn'. now rewrite <- (HD2 a b Hs).
Qed.

Lemma in_loop_masks_shape_only cs : shape_only (in_loop_masks cs).
Proof.
  intros a b H. unfold in_loop_masks.
  induction cs as [|c cs IH]; simpl; [reflexivity|].
  now rewrite IH, (mask_shape_only c "Official" a b H),
    (mask_shape_only c "Practice" a b H).
Qed.

(** The loop rewrites only rows of its own masks. *)
Lemma fold_number_category_frame cs df cur :
  Forall2 (differ (in_loop_masks cs))
          (fst (fold_left number_category cs (df, cur))) df.
Proof.
  revert df cur. induction cs as [|c cs IH]; intros df cur.
  - apply differ_refl.
  - cbn [fold_left]. rewrite number_category_eq.
    set (dfO := assign_range (mask c "Official") cur df).
    set (df1 := assign_range (mask c "Practice") 50 dfO).
    pose proof (IH df1 (cur + Z.of_nat (count_rows (mask c "Official") df))%Z)
      as H3.
    pose proof (assign_range_frame _ 50%Z dfO (mask_shape_only c "Practice"))
      as H2.
    pose proof (assign_range_frame _ cur df (mask_shape_only c "Official"))
      as H1.
    fold df1 in H2. fold dfO in H1.
    pose proof (differ_trans _ _ _ _ _ (mask_shape_only c "Practice") H3 H2)
      as H32.
    pose proof (differ_trans _ _ _ _ _ (mask_shape_only c "Official") H32 H1)
      as H321.
    eapply differ_weaken; [|exact H321].
    intros r. cbn [in_loop_masks existsb]. fold (in_loop_masks cs r).
    destruct (mask c "Official" r), (mask c "Practice" r),
      (in_loop_masks cs r); simpl; congruence.
Qed.

(** Two frames of the same shape that agree on the rows outside [D]
    leave the loop in agreement outside [D] minus the loop's masks. *)
Lemma fold_number_category_differ cs :
  forall D l1 l2 cur,
    Forall2 (differ D) l1 l2 ->
    snd (fold_left number_category cs (l1, cur))
    = snd (fold_left number_category cs (l2, cur))
    /\ Forall2 (differ (fun r => D r && negb (in_loop_masks cs r)))
               (fst (fold_left number_category cs (l1, cur)))
               (fst (fold_left number_category cs (l2, cur))).
Proof.
  induction cs as [|c cs IH]; intros D l1 l2 cur H.
  - simpl. split; [reflexivity|].
    eapply differ_weaken; [|exact H]. intros r. now rewrite andb_true_r.
  - cbn [fold_left]. rewrite !number_category_eq.
    rewrite (count_rows_shape _ l1 l2 (mask_shape_only c "Official")
               (differ_shape _ _ _ H)).
    pose proof (assign_range_differ _ _ cur _ _
                  (mask_shape_only c "Official") H) as HO.
    pose proof (assign_range_differ _ _ 50%Z _ _
                  (mask_shape_only c "Practice") HO) as HP.
    destruct (IH _ _ _ (cur + Z.of_nat (count_rows (mask c "Official") l2))%Z HP)
      as [Hcur Hrows].
    split; [exact Hcur|].
    eapply differ_weaken; [|exact Hrows].
    intros r. cbn [in_loop_masks existsb]. fold (in_loop_masks cs r).
    destruct (D r), (mask c "Official" r), (mask c "Practice" r),
      (in_loop_masks cs r); simpl; congruence.
Qed.

Lemma unnumbered_assign_numbers df :
  map unnumbered (assign_numbers df) = map unnumbered df.
Proof.
  unfold assign_numbers.
  apply (fold_number_category cat_order NoDup_cat_order df 1%Z).
Qed.

Lemma assign_numbers_idem df :
  assign_numbers (assign_numbers df) = assign_numbers df.
Proof.
  apply differ_none.
  pose proof (fold_number_category_frame cat_order df 1%Z) as Hframe.
  destruct (fold_number_category_differ cat_order _ _ _ 1%Z Hframe)
    as [_ H].
  eapply differ_weaken; [|exact H].
  intros r _. cbv beta. now destruct (in_loop_masks cat_order r).
Qed.

(** ** The prepared frame is clean and sorted *)

Lemma cleaned_shape l1 l2 :
  map unnumbered l1 = map unnumbered l2 ->
  Forall cleaned l1 -> Forall cleaned l2.
Proof.
  revert l2. induction l1 as [|a l1 IH]; intros [|b l2] H Hc;
    try discriminate; constructor.
  - apply cons_eq_inv in H as [Hab _]. inversion Hc as [|? ? Ha _]; subst.
    unfold cleaned in *. apply unnumbered_eq_inv; [|reflexivity].
    change (unnumbered (clean_row b)) with (clean_row (unnumbered b)).
    rewrite <- Hab.
    change (clean_row (unnumbered a)) with (unnumbered (clean_row a)).
    now rewrite Ha.
  - apply cons_eq_inv in H as [_ Hl]. inversion Hc; subst. now apply IH.
Qed.

Lemma unnumbered_prepared df :
  Permutation (map unnumbered (prepared df))
              (map unnumbered (map clean_row (records df))).
Proof.
  unfold prepared. destruct (has_Number df).
  - apply Permutation_map, sort_values_perm.
  - rewrite map_map.
    change (fun x => unnumbered (set_Number (Some 0%Z) x)) with unnumbered.
    apply Permutation_map, sort_values_perm.
Qed.

Lemma prepared_cleaned df : Forall cleaned (prepared df).
Proof.
  assert (H : Forall cleaned (sort_values (map clean_row (records df)))).
  { eapply Permutation_Forall.
    - symmetry. apply sort_values_perm.
    - apply Forall_map, Forall_forall. intros r _. apply clean_row_idem. }
  unfold prepared. destruct (has_Number df); [exact H|].
  eapply cleaned_shape; [|exact H].
  rewrite map_map. reflexivity.
Qed.

Lemma prepared_sorted df : sorted_frame (prepared df).
Proof.
  unfold prepared. destruct (has_Number df).
  - apply sort_values_sorted.
  - unfold sorted_frame. rewrite map_map. apply sort_values_sorted.
Qed.

Lemma map_cleaned df : Forall cleaned df -> map clean_row df = df.
Proof.
  induction 1 as [|r df Hr _ IH]; simpl; [reflexivity|].
  now rewrite Hr, IH.
Qed.

(** C4. assignNumbers is idempotent: a second calculate_numbers leaves
    the row order and every number as the first one set them.  The
    sort is by category rank, type rank and last name token, and keeps
    rows of equal keys in their prior order, so the sorted frame is a
    fixed point of the sort. *)
Theorem calculate_numbers_idempotent (df : JudgeFrame) :
  calculate_numbers (calculate_numbers df) = calculate_numbers df.
Proof.
  rewrite (calculate_numbers_eq df).
  set (out := assign_numbers (prepared df)).
  rewrite calculate_numbers_eq. f_equal.
  assert (Hshape : map unnumbered out = map unnumbered (prepared df))
    by apply unnumbered_assign_numbers.
  assert (Hprep : prepared {| has_Number := true; records := out |} = out).
  { unfold prepared. cbn [has_Number records].
    rewrite map_cleaned.
    - apply sort_values_fixed. unfold sorted_frame.
      rewrite (sort_key_shape _ _ Hshape). apply prepared_sorted.
    - apply (cleaned_shape (prepared df)); [now symmetry|].
      apply prepared_cleaned. }
  rewrite Hprep. apply assign_numbers_idem.
Qed.

(** The same, read off the rows: the sort of the second pass moves no
    row, because the frame already is in key order. *)
Lemma calculate_numbers_sorted (df : JudgeFrame) :
  sorted_frame (records (calculate_numbers df)).
Proof.
  rewrite calculate_numbers_eq. cbn [records]. unfold sorted_frame.
  rewrite (sort_key_shape _ _ (unnumbered_assign_numbers (prepared df))).
  apply prepared_sorted.
Qed.

Lemma calculate_numbers_perm (df : JudgeFrame) :
  Permutation (map unnumbered (records (calculate_numbers df)))
              (map unnumbered (map clean_row (records df))).
Proof.
  rewrite calculate_numbers_eq. cbn [records].
  rewrite unnumbered_assign_numbers. apply unnumbered_prepared.
Qed.

(** C10, as amended.  calculate_numbers neither adds nor removes rows:
    apart from the numbers, its rows are the input rows, one for one and
    possibly reordered, each with its name and print flag as they were
    and with its category upper-cased and its type title-cased, both
    also stripped of surrounding whitespace. *)
Theorem calculate_numbers_frame (df : JudgeFrame) :
  Permutation (map unnumbered (records (calculate_numbers df)))
              (map unnumbered (map clean_row (records df)))
  /\ length (records (calculate_numbers df)) = length (records df)
  /\ Forall (fun r =>
               jName (clean_row r) = jName r
               /\ jPrint (clean_row r) = jPrint r
               /\ jCategory (clean_row r)
                  = PyStr.strip (PyStr.upper (jCategory r))
               /\ jType (clean_row r) = PyStr.strip (PyStr.title (jType r)))
            (records df).
Proof.
  pose proof (calculate_numbers_perm df) as H.
  split; [exact H|split].
  - apply Permutation_length in H. now rewrite !length_map in H.
  - apply Forall_forall. intros r _. repeat split.
Qed.

(** C10 as first stated fails: a category written with a leading blank
    comes out without it, which case normalization alone does not do. *)
Lemma calculate_numbers_frame_strips :
  let df := {| has_Number := true;
               records := [mkJudge (Some 7%Z) "Ann Lee" " MUS" "Official" true] |} in
  ~ Permutation (map unnumbered (records (calculate_numbers df)))
                (map unnumbered (map case_normalized (records df))).
Proof.
  cbv zeta. intros H. vm_compute in H.
  apply Permutation_length_1 in H. discriminate H.
Qed.

(** ** Placeholders *)

Lemma new_rows_absent df :
  Forall (fun p => exists cat, In cat categories /\ p = absent_judge cat)
         (new_rows df).
Proof.
  unfold new_rows. destruct (Nat.ltb 0 (max_official df)); [|constructor].
  apply Forall_flat_map, Forall_forall. intros cat Hcat.
  destruct (Nat.ltb 0 _); [|constructor].
  apply Forall_forall. intros p Hp. apply repeat_spec in Hp. eauto.
Qed.

Lemma absent_judge_cleaned cat :
  In cat categories -> clean_row (absent_judge cat) = absent_judge cat.
Proof.
  unfold categories. simpl.
  intros [<-|[<-|[<-|[]]]]; reflexivity.
Qed.

Lemma balance_records df :
  records (balance_and_sort_judges df) = records df ++ new_rows (records df).
Proof.
  unfold balance_and_sort_judges.
  destruct (new_rows (records df)); [now rewrite app_nil_r|reflexivity].
Qed.

(** Every Official row of a known category holds a positive number
    after [calculate_numbers]. *)
Lemma officials_numbered df :
  Forall (fun r => exists n, jNumber r = Some n /\ (1 <= n)%Z)
         (officials_of cat_order (records (calculate_numbers df))).
Proof.
  destruct (calculate_numbers_ranges df) as [H _]. cbv zeta in H.
  apply Forall_forall. intros r Hr.
  apply (in_map jNumber) in Hr. rewrite H in Hr.
  apply in_map_iff in Hr as [n [Hn Hin]].
  exists n. split; [now symmetry|]. apply In_py_range in Hin. lia.
Qed.

(** C2, as amended.  A placeholder comes out of balanceJudges with
    number 0, print=false, type Official and the name
    "Absent <CAT> Judge".  After calculate_numbers on the balanced table
    it is still there with that name, category, type and print=false,
    but it is numbered with the Official judges of its category: its
    number is 1 or more. *)
Theorem placeholders_numbered (df : JudgeFrame) :
  let placeholders := new_rows (records df) in
  let out := records (calculate_numbers (balance_and_sort_judges df)) in
  Forall (fun p =>
            jNumber p = Some 0%Z /\ jPrint p = false
            /\ jType p = "Official" /\ In (jCategory p) categories
            /\ jName p = ("Absent " ++ jCategory p ++ " Judge")%string)
         placeholders
  /\ Forall (fun p =>
               exists r, In r out /\ unnumbered r = unnumbered p
                         /\ jPrint r = false
                         /\ exists n, jNumber r = Some n /\ (1 <= n)%Z)
            placeholders.
Proof.
  cbv zeta. pose proof (new_rows_absent (records df)) as Habs. split.
  - eapply Forall_impl; [|exact Habs]. cbv beta.
    intros p [cat [Hcat ->]]. repeat split. exact Hcat.
  - apply Forall_forall. intros p Hp.
    rewrite Forall_forall in Habs. destruct (Habs p Hp) as [cat [Hcat ->]].
    set (bal := balance_and_sort_judges df).
    pose proof (calculate_numbers_perm bal) as Hperm.
    assert (Hin : In (unnumbered (absent_judge cat))
                     (map unnumbered (records (calculate_numbers bal)))).
    { apply (Permutation_in _ (Permutation_sym Hperm)).
      apply in_map. rewrite <- (absent_judge_cleaned cat Hcat).
      apply in_map. unfold bal. rewrite balance_records.
      apply in_or_app. now right. }
    apply in_map_iff in Hin as [r [Hshape Hr]].
    exists r. split; [exact Hr|]. split; [exact Hshape|].
    split; [exact (f_equal jPrint Hshape)|].
    pose proof (officials_numbered bal) as Hnum.
    rewrite Forall_forall in Hnum. apply Hnum.
    unfold officials_of. apply in_flat_map. exists cat. split; [exact Hcat|].
    apply filter_In. split; [exact Hr|].
    rewrite (mask_shape_only cat "Official" _ _ Hshape).
    unfold mask. simpl. now rewrite !String.eqb_refl.
Qed.

(** C2 as first stated fails: with one MUS Official judge imported, the
    PER and SNG placeholders come out of calculate_numbers holding the
    numbers 2 and 3. *)
Lemma placeholder_keeps_zero_fails :
  let df := {| has_Number := false;
               records := [mkJudge None "Ann Lee" "MUS" "Official" true] |} in
  let out := records (calculate_numbers (balance_and_sort_judges df)) in
  new_rows (records df) = [absent_judge "PER"; absent_judge "SNG"]
  /\ out = [mkJudge (Some 1%Z) "Ann Lee" "MUS" "Official" true;
            mkJudge (Some 2%Z) "Absent PER Judge" "PER" "Official" false;
            mkJudge (Some 3%Z) "Absent SNG Judge" "SNG" "Official" false]
  /\ ~ Forall (fun r =>
                 In (unnumbered r) (map unnumbered (new_rows (records df))) ->
                 jNumber r = Some 0%Z /\ jPrint r = false)
              out.
Proof.
  cbv zeta. split; [reflexivity|]. split; [reflexivity|].
  intros H. vm_compute in H.
  inversion H as [|? ? _ H1]; subst. inversion H1 as [|? ? H2 _]; subst.
  destruct H2 as [H2 _]; [now left|]. discriminate H2.
Qed.

(** ** RTF escaping *)

Lemma replace_one_char a new s :
  PyStr.replace (String a EmptyString) new s = replace_char a new s.
Proof.
  unfold PyStr.replace.
  induction s as [|c s IH]; [reflexivity|].
  cbn [PyStr.replace_from replace_char prefix String.length Nat.sub].
  destruct (ascii_dec a c) as [->|Hne].
  - rewrite Ascii.eqb_refl.
    replace (prefix "" s) with true by now destruct s.
    now rewrite IH.
  - apply Ascii.eqb_neq in Hne. rewrite Hne. simpl. now rewrite IH.
Qed.

Lemma append_assoc (a b c : string) : ((a ++ b) ++ c = a ++ (b ++ c))%string.
Proof. induction a as [|x a IH]; simpl; [reflexivity|now rewrite IH]. Qed.

Lemma replace_char_app a new s1 s2 :
  (replace_char a new (s1 ++ s2)
   = replace_char a new s1 ++ replace_char a new s2)%string.
Proof.
  induction s1 as [|c s1 IH]; simpl; [reflexivity|].
  now rewrite IH, append_assoc.
Qed.

Lemma escape_char_passes c :
  replace_char "}" "\}" (replace_char "{" "\{" (replace_char "\" "\\"
    (String c EmptyString)))
  = escape_char c.
Proof.
  destruct c as [[] [] [] [] [] [] [] []]; reflexivity.
Qed.

Lemma escape_rtf_each s : escape_rtf (Some s) = escape_each s.
Proof.
  unfold escape_rtf. rewrite !replace_one_char.
  induction s as [|c s IH]; [reflexivity|].
  change (String c s) with (String c EmptyString ++ s)%string.
  rewrite !replace_char_app, IH, escape_char_passes. reflexivity.
Qed.

Lemma unescape_escape_each s : unescape_rtf (escape_each s) = s.
Proof.
  induction s as [|c s IH]; [reflexivity|].
  cbn [escape_each]. unfold escape_char.
  destruct (Ascii.eqb c "\") eqn:E1.
  - apply Ascii.eqb_eq in E1. subst c. simpl. now rewrite IH.
  - destruct (Ascii.eqb c "{") eqn:E2.
    + apply Ascii.eqb_eq in E2. subst c. simpl. now rewrite IH.
    + destruct (Ascii.eqb c "}") eqn:E3.
      * apply Ascii.eqb_eq in E3. subst c. simpl. now rewrite IH.
      * simpl. rewrite E1. now rewrite IH.
Qed.

(** C8. escape_rtf writes two backslashes for a backslash, backslash
    and brace for either brace, and every other character as it is;
    each character of the input is escaped exactly once (the
    backslashes the brace escapes insert are not escaped again), so
    reading the markup back, taking the character after a backslash
    literally, returns the input. *)
Theorem escape_rtf_correct (s : string) (c : ascii) :
  escape_rtf (Some s) = escape_each s
  /\ escape_char c
     = (if Ascii.eqb c "\" || Ascii.eqb c "{" || Ascii.eqb c "}"
        then String "\" (String c EmptyString)
        else String c EmptyString)
  /\ unescape_rtf (escape_rtf (Some s)) = s.
Proof.
  split; [apply escape_rtf_each|]. split.
  - unfold escape_char.
    destruct (Ascii.eqb_spec c "\"); [now subst|].
    destruct (Ascii.eqb_spec c "{"); [now subst|].
    destruct (Ascii.eqb_spec c "}"); [now subst|].
    reflexivity.
  - rewrite escape_rtf_each. apply unescape_escape_each.
Qed.

(** ** Margin scaling *)




Lemma apply_on_transform t m x y :
  (fst (apply_on (transform t m) (x, y))
   == fst (apply_on m (apply_on t (x, y)))
   /\ snd (apply_on (transform t m) (x, y))
      == snd (apply_on m (apply_on t (x, y))))%Q.
Proof. simpl. split; ring. Qed.



(** ** Short-form two-up packing *)

Lemma range_from_two fuel start stop :
  stop - start <= fuel ->
  range_from fuel start stop 2
  = map (fun k => start + 2 * k) (seq 0 ((stop - start + 1) / 2)).
Proof.
  revert start. induction fuel as [|fuel IH]; intros start Hfuel.
  - replace (stop - start) with 0 by lia. reflexivity.
  - cbn [range_from]. destruct (Nat.ltb_spec start stop) as [Hlt|Hge].
    + rewrite IH by lia.
      replace ((stop - start + 1) / 2)
        with (S ((stop - (start + 2) + 1) / 2)).
      * cbn [seq map]. f_equal; [lia|].
        rewrite <- seq_shift, map_map. apply map_ext. intros k. lia.
      * destruct (Nat.le_gt_cases (start + 2) stop) as [H2|H2].
        -- replace (stop - start + 1) with (stop - (start + 2) + 1 + 1 * 2)
             by lia.
           rewrite Nat.div_add by lia. lia.
        -- replace (stop - (start + 2)) with 0 by lia.
           replace (stop - start) with 1 by lia. reflexivity.
    + replace (stop - start) with 0 by lia. reflexivity.
Qed.

Lemma py_range3_two n :
  py_range3 0 n 2 = map (fun k => 2 * k) (seq 0 ((n + 1) / 2)).
Proof.
  unfold py_range3. rewrite range_from_two by lia.
  rewrite Nat.sub_0_r. reflexivity.
Qed.

Lemma mapM_Some {A B} (f : A -> option B) (g : A -> B) l :
  (forall a, In a l -> f a = Some (g a)) -> mapM f l = Some (map g l).
Proof.
  induction l as [|a l IH]; intros H; simpl; [reflexivity|].
  rewrite (H a (or_introl eq_refl)), IH; [reflexivity|].
  intros b Hb. apply H. now right.
Qed.

Lemma letter_margin data is_short :
  apply_margin_to_page (create_overlay data is_short) default_margin_inch
  = Some {| mediabox_width := 612; mediabox_height := 792;
            contents := [(OverlayText data is_short, slot1_ctm)] |}.
Proof. reflexivity. Qed.

Lemma short_form_page_eq templates t_name base rest judge comp1 comp2 ctx :
  templates t_name = Some (base :: rest) ->
  short_form_page templates t_name judge comp1 comp2 ctx
  = Some (two_up_page base judge comp1 comp2 ctx).
Proof.
  intros Ht. unfold short_form_page. rewrite Ht. cbn [nth_error].
  rewrite letter_margin. destruct comp2 as [comp2|].
  - rewrite letter_margin. unfold two_up_page, merge_page, add_transformation.
    cbn [contents mediabox_width mediabox_height map].
    now rewrite <- app_assoc.
  - unfold two_up_page, merge_page. cbn [contents mediabox_width mediabox_height].
    now rewrite app_nil_r.
Qed.

Lemma second_slot_flip t x y :
  (fst (apply_on (transform t second_slot_op) (x, y))
   == 612 - fst (apply_on t (x, y))
   /\ snd (apply_on (transform t second_slot_op) (x, y))
      == 792 - snd (apply_on t (x, y)))%Q.
Proof. simpl. split; ring. Qed.

(** Slot 1 is drawn upright: shrunk by 16/17 about the page centre. *)
Lemma slot1_upright x y :
  (fst (apply_on slot1_ctm (x, y)) == (16 # 17) * x + 18
   /\ snd (apply_on slot1_ctm (x, y)) == (16 # 17) * y + (396 # 17))%Q.
Proof.
  assert (Ha : (ctm_a slot1_ctm == 16 # 17)%Q) by (vm_compute; reflexivity).
  assert (Hb : (ctm_b slot1_ctm == 0)%Q) by (vm_compute; reflexivity).
  assert (Hc : (ctm_c slot1_ctm == 0)%Q) by (vm_compute; reflexivity).
  assert (Hd : (ctm_d slot1_ctm == 16 # 17)%Q) by (vm_compute; reflexivity).
  assert (He : (ctm_e slot1_ctm == 18)%Q) by (vm_compute; reflexivity).
  assert (Hf : (ctm_f slot1_ctm == 396 # 17)%Q) by (vm_compute; reflexivity).
  unfold apply_on. cbn [fst snd]. rewrite Ha, Hb, Hc, Hd, He, Hf.
  split; ring.
Qed.

(** C5. For an ordered list of N competitors, short-form composition
    on a template makes ceil(N/2) pages.  Page k holds the overlay of
    competitor 2k in slot 1 at the normal orientation and, when there
    is a competitor 2k+1, that competitor's overlay in slot 2 after a
    rotation by 180 degrees followed by a translation by (612, 792):
    a point of slot 2 is the slot-1 point flipped to
    (612 - x, 792 - y).  When N is odd the last page has slot 1 only. *)
Theorem short_form_pages_two_up
        (templates : TemplateDir) (t_name : string) (base : Page)
        (rest : list Page) (judge : Judge) (competitor_list : list Competitor)
        (contest_context : ContestContext) :
  templates t_name = Some (base :: rest) ->
  exists pages,
    short_form_pages templates t_name judge competitor_list contest_context
    = Some pages
    /\ length pages = (length competitor_list + 1) / 2
    /\ (forall k, k < length pages ->
          exists comp1,
            nth_error competitor_list (2 * k) = Some comp1
            /\ nth_error pages k
               = Some (two_up_page base judge comp1
                         (nth_error competitor_list (2 * k + 1))
                         contest_context))
    /\ (forall k, length competitor_list = 2 * k + 1 ->
          exists comp1,
            nth_error pages k
            = Some (two_up_page base judge comp1 None contest_context))
    /\ second_slot_op = translate 612 792 (rotate 180 Transformation_id)
    /\ (forall x y,
          fst (apply_on slot1_ctm (x, y)) == (16 # 17) * x + 18
          /\ snd (apply_on slot1_ctm (x, y)) == (16 # 17) * y + (396 # 17))%Q
    /\ (forall x y,
          fst (apply_on slot2_ctm (x, y))
          == 612 - fst (apply_on slot1_ctm (x, y))
          /\ snd (apply_on slot2_ctm (x, y))
             == 792 - snd (apply_on slot1_ctm (x, y)))%Q.
Proof.
  intros Ht.
  set (n := length competitor_list).
  set (dummy := mkCompetitor None "" None false).
  set (page_of := fun i =>
         two_up_page base judge (nth i competitor_list dummy)
                     (nth_error competitor_list (i + 1)) contest_context).
  assert (Hpages :
            short_form_pages templates t_name judge competitor_list
                             contest_context
            = Some (map page_of (py_range3 0 n 2))).
  { unfold short_form_pages. fold n. apply mapM_Some.
    intros i Hi. rewrite py_range3_two in Hi.
    apply in_map_iff in Hi as [k [<- Hk]]. apply in_seq in Hk.
    assert (Hlt : 2 * k < n).
    { pose proof (Nat.Div0.mul_div_le (n + 1) 2). lia. }
    rewrite (nth_error_nth' competitor_list dummy Hlt).
    destruct (Nat.ltb_spec (2 * k + 1) n) as [H1|H1].
    - rewrite (nth_error_nth' competitor_list dummy H1).
      rewrite (short_form_page_eq _ _ _ _ _ _ _ _ Ht). unfold page_of.
      now rewrite (nth_error_nth' competitor_list dummy H1).
    - rewrite (short_form_page_eq _ _ _ _ _ _ _ _ Ht). unfold page_of.
      assert (Hnone : nth_error competitor_list (2 * k + 1) = None)
        by (apply nth_error_None; fold n; lia).
      now rewrite Hnone. }
  assert (Hlen : length (map page_of (py_range3 0 n 2)) = (n + 1) / 2).
  { now rewrite py_range3_two, !length_map, length_seq. }
  assert (Hnth : forall k, k < (n + 1) / 2 ->
            2 * k < n
            /\ nth_error (map page_of (py_range3 0 n 2)) k
               = Some (page_of (2 * k))).
  { intros k Hk. split.
    - pose proof (Nat.Div0.mul_div_le (n + 1) 2). lia.
    - rewrite py_range3_two, map_map.
      rewrite nth_error_map, nth_error_seq.
      destruct (Nat.ltb_spec k ((n + 1) / 2)); [reflexivity|lia]. }
  exists (map page_of (py_range3 0 n 2)).
  split; [exact Hpages|]. split; [exact Hlen|].
  split; [|split; [|split; [reflexivity|split; [exact slot1_upright|]]]].
  - intros k Hk. rewrite Hlen in Hk. destruct (Hnth k Hk) as [Hlt Hpage].
    exists (nth (2 * k) competitor_list dummy). split.
    + now apply nth_error_nth'.
    + exact Hpage.
  - intros k Hodd. fold n in Hodd.
    assert (Hk : k < (n + 1) / 2).
    { rewrite Hodd. replace (2 * k + 1 + 1) with ((k + 1) * 2) by lia.
      rewrite Nat.div_mul by lia. lia. }
    destruct (Hnth k Hk) as [_ Hpage].
    exists (nth (2 * k) competitor_list dummy). rewrite Hpage. unfold page_of.
    assert (Hnone : nth_error competitor_list (2 * k + 1) = None)
      by (apply nth_error_None; fold n; lia).
    now rewrite Hnone.
  - intros x y. apply second_slot_flip.
Qed.

(** The theorem on a template with one page and three competitors:
    two pages. *)
Lemma short_form_pages_two_up_witness :
  let templates : TemplateDir :=
    fun _ => Some [{| mediabox_width := 612; mediabox_height := 792;
                      contents := [] |}] in
  let judge := mkJudge (Some 1%Z) "Ann Lee" "MUS" "Official" true in
  let comps := [mkCompetitor (Some 1%Z) "A" None true;
                mkCompetitor (Some 2%Z) "B" None true;
                mkCompetitor (Some 3%Z) "C" None true] in
  let ctx := mkContext "Example" "Quartet Finals" "05/01/2024" in
  templates "MUS_Short.pdf"
  = Some [{| mediabox_width := 612; mediabox_height := 792; contents := [] |}]
  /\ exists pages,
       short_form_pages templates "MUS_Short.pdf" judge comps ctx = Some pages
       /\ length pages = 2.
Proof.
  cbv zeta. split; [reflexivity|].
  destruct (short_form_pages_two_up
              (fun _ => Some [{| mediabox_width := 612; mediabox_height := 792;
                                 contents := [] |}])
              "MUS_Short.pdf"
              {| mediabox_width := 612; mediabox_height := 792; contents := [] |}
              []
              (mkJudge (Some 1%Z) "Ann Lee" "MUS" "Official" true)
              [mkCompetitor (Some 1%Z) "A" None true;
               mkCompetitor (Some 2%Z) "B" None true;
               mkCompetitor (Some 3%Z) "C" None true]
              (mkContext "Example" "Quartet Finals" "05/01/2024")
              eq_refl)
    as (pages & Hp & Hlen & _).
  exists pages. split; [exact Hp|exact Hlen].
Defined.

(** ** Per-Judge mode uses Long templates only *)

Lemma mapM_ext {A B} (f g : A -> option B) l :
  (forall a, f a = g a) -> mapM f l = mapM g l.
Proof.
  intros H. induction l as [|a l IH]; simpl; [reflexivity|].
  now rewrite H, IH.
Qed.

Lemma short_form_pages_ext (t1 t2 : TemplateDir) t_name judge comps ctx :
  t1 t_name = t2 t_name ->
  short_form_pages t1 t_name judge comps ctx
  = short_form_pages t2 t_name judge comps ctx.
Proof.
  intros H. unfold short_form_pages. apply mapM_ext. intros i.
  destruct (nth_error comps i); [|reflexivity].
  destruct (if Nat.ltb (i + 1) (length comps)
            then match nth_error comps (i + 1) with
                 | Some c => Some (Some c)
                 | None => None
                 end
            else Some None); [|reflexivity].
  unfold short_form_page. now rewrite H.
Qed.

Lemma long_form_pages_ext (t1 t2 : TemplateDir) t_name judge comps ctx :
  t1 t_name = t2 t_name ->
  long_form_pages t1 t_name judge comps ctx
  = long_form_pages t2 t_name judge comps ctx.
Proof.
  intros H. unfold long_form_pages.
  rewrite (mapM_ext _
             (fun comp =>
                match t2 t_name with
                | Some template_reader =>
                    mapM (fun '(i_page, page) =>
                            if Nat.eqb i_page 0 then
                              match apply_margin_to_page
                                      (create_overlay
                                         (get_page_data judge comp ctx) false)
                                      default_margin_inch with
                              | Some info_page =>
                                  Some (merge_page page info_page)
                              | None => None
                              end
                            else Some page)
                         (enumerate template_reader)
                | None => None
                end)); [reflexivity|].
  intros comp. now rewrite H.
Qed.

Lemma judge_templates_only_long templates t_names judge comps ctx :
  judge_templates templates t_names judge comps ctx
  = judge_templates (only_long templates) t_names judge comps ctx.
Proof.
  induction t_names as [|t rest IH]; [reflexivity|].
  cbn [judge_templates]. rewrite IH.
  destruct (PyStr.contains "Long" t) eqn:E; [|reflexivity].
  cbn [negb].
  assert (Ht : templates t = only_long templates t)
    by (unfold only_long; now rewrite E).
  unfold exists_file. rewrite <- Ht.
  destruct (templates t) as [reader|] eqn:Er; [|reflexivity].
  cbn [negb].
  rewrite (short_form_pages_ext templates (only_long templates) t);
    [|congruence].
  rewrite (long_form_pages_ext templates (only_long templates) t);
    [|congruence].
  reflexivity.
Qed.

Lemma judge_templates_long_packet templates t_names judge comps ctx :
  Forall long_not_short t_names ->
  judge_templates templates t_names judge comps ctx
  = long_packet templates (filter (PyStr.contains "Long") t_names)
                judge comps ctx.
Proof.
  induction 1 as [|t rest Ht _ IH]; [reflexivity|].
  cbn [judge_templates filter]. rewrite IH.
  destruct (PyStr.contains "Long" t) eqn:E; [|reflexivity].
  cbn [negb long_packet]. rewrite (Ht E).
  destruct (exists_file templates t); reflexivity.
Qed.

Lemma FORMAT_MAPPING_long_not_short cat :
  Forall long_not_short (dict_get FORMAT_MAPPING cat []).
Proof.
  unfold FORMAT_MAPPING. cbn [dict_get].
  repeat match goal with
         | |- context [String.eqb ?a ?b] => destruct (String.eqb a b)
         end;
    repeat (first [apply Forall_nil
                  |apply Forall_cons;
                   [intros H; vm_compute in H |- *; congruence|]]).
Qed.

Lemma judge_packets_only_long templates judges comps ctx ss sd :
  judge_packets templates judges comps ctx ss sd
  = judge_packets (only_long templates) judges comps ctx ss sd.
Proof.
  induction judges as [|j judges IH]; [reflexivity|].
  cbn [judge_packets]. rewrite IH.
  destruct (Number_is_zero (jNumber j)); [reflexivity|].
  destruct (dict_get FORMAT_MAPPING (jCategory j) []) as [|t ts];
    [reflexivity|].
  now rewrite judge_templates_only_long.
Qed.

(** C7. In Per-Judge mode a template whose file name lacks "Long" is
    skipped: the packet of a judge is made of the long-form pages of
    the Long templates of the judge's category, no short-form page is
    composed, and the whole action gives what it gives with every
    non-Long template file taken away. *)
Theorem per_judge_long_only
        (templates : TemplateDir) (c_district c_session : string)
        (c_date_obj : Date) (final_judges : list Judge)
        (final_competitors : list Competitor) (judge : Judge)
        (contest_context : ContestContext) :
  judge_templates templates (dict_get FORMAT_MAPPING (jCategory judge) [])
                  judge final_competitors contest_context
  = long_packet templates
      (filter (PyStr.contains "Long")
              (dict_get FORMAT_MAPPING (jCategory judge) []))
      judge final_competitors contest_context
  /\ option1_by_judge templates c_district c_session c_date_obj
                      final_judges final_competitors
     = option1_by_judge (only_long templates) c_district c_session c_date_obj
                        final_judges final_competitors.
Proof.
  split.
  - apply judge_templates_long_packet, FORMAT_MAPPING_long_not_short.
  - unfold option1_by_judge, by_judge_pdfs.
    now rewrite judge_packets_only_long.
Qed.

(** ** Judges with number 0 are left out of every output *)











(** ** End-to-end scenario *)

(** C9, as amended.  With district "Example", session
    "Quartet Semi-Finals", date 2024-05-01, one MUS judge (number 1,
    print=true), one competitor (number 10, "Test Quartet",
    print=true) and the one-page MUS Long template alone, Per-Judge
    mode hands out one PDF with one composed page.  Its file name is
    "Quartet Semi-Finals_<judgeName>_05-01-2024.pdf": clean_filename
    keeps the blank of the session name. *)
Theorem end_to_end_scenario (name ty : string) (director : option string)
        (base : Page) :
  let judge := mkJudge (Some 1%Z) name "MUS" ty true in
  let comp := mkCompetitor (Some 10%Z) "Test Quartet" director true in
  let ctx := mkContext "Example" "Quartet Semi-Finals" "05/01/2024" in
  option1_by_judge (only_mus_long base) "Example" "Quartet Semi-Finals"
                   (mkDate 2024 5 1) [judge] [comp]
  = download_pdf
      ("Quartet Semi-Finals_" ++ clean_filename name ++ "_05-01-2024.pdf")
      [merge_page base
         {| mediabox_width := 612; mediabox_height := 792;
            contents :=
              [(OverlayText (get_page_data judge comp ctx) false, slot1_ctm)]
         |}].
Proof.
  cbv zeta. reflexivity.
Qed.

(** C9 as first stated fails: the file is not named with an
    underscore between "Quartet" and "Semi-Finals". *)
Lemma end_to_end_underscore_name_fails :
  let blank := {| mediabox_width := 612; mediabox_height := 792;
                  contents := [] |} in
  clean_filename "Ann Lee" = "Ann Lee"
  /\ ~ exists pages,
         option1_by_judge (only_mus_long blank) "Example" "Quartet Semi-Finals"
                          (mkDate 2024 5 1)
                          [mkJudge (Some 1%Z) "Ann Lee" "MUS" "Official" true]
                          [mkCompetitor (Some 10%Z) "Test Quartet" None true]
         = download_pdf "Quartet_Semi-Finals_Ann Lee_05-01-2024.pdf" pages.
Proof.
  cbv zeta. split; [reflexivity|].
  intros [pages H]. vm_compute in H. discriminate H.
Qed.

(** * Further properties of the roster normalizer *)

(** ** Balancing *)

Lemma count_rows_app m l1 l2 :
  count_rows m (l1 ++ l2) = count_rows m l1 + count_rows m l2.
Proof. unfold count_rows. now rewrite filter_app, length_app. Qed.

Lemma count_rows_repeat m x k :
  count_rows m (repeat x k) = if m x then k else 0.
Proof.
  unfold count_rows. induction k as [|k IH]; simpl.
  - now destruct (m x).
  - destruct (m x) eqn:E; simpl; rewrite IH; reflexivity.
Qed.

Lemma max_official_eq df :
  max_official df
  = Nat.max (count_rows (mask "MUS" "Official") df)
            (Nat.max (count_rows (mask "PER" "Official") df)
                     (count_rows (mask "SNG" "Official") df)).
Proof.
  unfold max_official, categories. cbn [fold_left].
  set (a := count_rows (mask "MUS" "Official") df).
  set (b := count_rows (mask "PER" "Official") df).
  set (c := count_rows (mask "SNG" "Official") df).
  destruct (Nat.ltb_spec 0 a); destruct (Nat.ltb_spec a b);
    destruct (Nat.ltb_spec 0 b); destruct (Nat.ltb_spec b c);
    destruct (Nat.ltb_spec a c); destruct (Nat.ltb_spec 0 c); lia.
Qed.

(** The placeholders of one category: as many as it is short of the
    largest panel. *)
Lemma count_new_rows df cat :
  In cat categories ->
  count_rows (mask cat "Official") (new_rows df)
  = max_official df - count_rows (mask cat "Official") df.
Proof.
  intros Hcat. unfold new_rows.
  destruct (Nat.ltb_spec 0 (max_official df)) as [Hpos|Hzero].
  - unfold categories in *. cbn [flat_map]. rewrite !count_rows_app.
    assert (Hpad : forall c,
               count_rows (mask cat "Official")
                 (if Nat.ltb 0 (max_official df
                                - count_rows (mask c "Official") df)
                  then repeat (absent_judge c)
                         (max_official df - count_rows (mask c "Official") df)
                  else [])
               = if String.eqb c cat
                 then max_official df - count_rows (mask c "Official") df
                 else 0).
    { intros c.
      destruct (Nat.ltb_spec 0 (max_official df
                                - count_rows (mask c "Official") df)) as [H|H].
      - rewrite count_rows_repeat. unfold mask, absent_judge.
        cbn [jCategory jType]. now rewrite String.eqb_refl, andb_true_r.
      - change (count_rows (mask cat "Official") []) with 0.
        destruct (String.eqb c cat); lia. }
    rewrite !Hpad. change (count_rows (mask cat "Official") []) with 0.
    simpl in Hcat. destruct Hcat as [<-|[<-|[<-|[]]]]; simpl; lia.
  - change (count_rows (mask cat "Official") []) with 0. lia.
Qed.

Lemma count_le_max_official df cat :
  In cat categories -> count_rows (mask cat "Official") df <= max_official df.
Proof.
  intros Hcat. rewrite max_official_eq. unfold categories in Hcat.
  simpl in Hcat. destruct Hcat as [<-|[<-|[<-|[]]]]; lia.
Qed.

Lemma count_balanced df cat :
  In cat categories ->
  count_rows (mask cat "Official") (records (balance_and_sort_judges df))
  = max_official (records df).
Proof.
  intros Hcat. rewrite balance_records, count_rows_app, count_new_rows by easy.
  pose proof (count_le_max_official (records df) cat Hcat). lia.
Qed.

Lemma new_rows_balanced df :
  count_rows (mask "MUS" "Official") df = count_rows (mask "PER" "Official") df ->
  count_rows (mask "PER" "Official") df = count_rows (mask "SNG" "Official") df ->
  new_rows df = [].
Proof.
  intros H1 H2. unfold new_rows.
  destruct (Nat.ltb 0 (max_official df)); [|reflexivity].
  unfold categories. cbn [flat_map]. rewrite max_official_eq.
  repeat match goal with
         | |- context [Nat.ltb 0 ?d] => destruct (Nat.ltb_spec 0 d); [lia|]
         end.
  reflexivity.
Qed.

(** X1. After balance_and_sort_judges each of the three categories has
    the same number of Official rows: the largest of the three counts
    of the input. *)
Theorem balance_equal_counts (df : JudgeFrame) :
  Forall (fun cat =>
            count_rows (mask cat "Official")
                       (records (balance_and_sort_judges df))
            = max_official (records df))
         categories
  /\ max_official (records df)
     = Nat.max (count_rows (mask "MUS" "Official") (records df))
               (Nat.max (count_rows (mask "PER" "Official") (records df))
                        (count_rows (mask "SNG" "Official") (records df))).
Proof.
  split; [|apply max_official_eq].
  apply Forall_forall. intros cat Hcat. now apply count_balanced.
Qed.

(** X2. Balancing is idempotent: a balanced table gets no further
    placeholder, so a second balance_and_sort_judges returns the table
    as the first one left it. *)
Theorem balance_idempotent (df : JudgeFrame) :
  balance_and_sort_judges (balance_and_sort_judges df)
  = balance_and_sort_judges df.
Proof.
  set (bal := balance_and_sort_judges df).
  unfold balance_and_sort_judges at 1.
  rewrite new_rows_balanced; [reflexivity| |]; unfold bal;
    rewrite !count_balanced; simpl; auto.
Qed.

(** ** Order of the numbered table *)

Lemma Sorted_map_inv {A B} (f : A -> B) (R : B -> B -> Prop) l :
  Sorted R (map f l) -> Sorted (fun a b => R (f a) (f b)) l.
Proof.
  induction l as [|a l IH]; simpl; intros H; [constructor|].
  inversion H as [|? ? Hs Hhd]; subst. constructor; [now apply IH|].
  destruct l as [|b l]; simpl in *; constructor. now inversion Hhd.
Qed.

Lemma key_leb_category a b :
  key_leb (sort_key a) (sort_key b) = true -> (Sort_Cat a <= Sort_Cat b)%Z.
Proof.
  unfold key_leb, sort_key.
  destruct (Z.ltb_spec (Sort_Cat a) (Sort_Cat b)); [lia|].
  destruct (Z.ltb_spec (Sort_Cat b) (Sort_Cat a)); [discriminate|lia].
Qed.

Lemma key_leb_spec a b :
  key_leb (sort_key a) (sort_key b) = true
  <-> (Sort_Cat a < Sort_Cat b)%Z
      \/ (Sort_Cat a = Sort_Cat b
          /\ ((Sort_Type a < Sort_Type b)%Z
              \/ (Sort_Type a = Sort_Type b
                  /\ String.leb (Sort_Last_Name a) (Sort_Last_Name b) = true))).
Proof.
  unfold key_leb, sort_key.
  destruct (Z.ltb_spec (Sort_Cat a) (Sort_Cat b)).
  { split; [now left|reflexivity]. }
  destruct (Z.ltb_spec (Sort_Cat b) (Sort_Cat a)).
  { split; [discriminate|]. intros [?|[? _]]; lia. }
  destruct (Z.ltb_spec (Sort_Type a) (Sort_Type b)).
  { split; [|reflexivity]. intros _. right. split; [lia|now left]. }
  destruct (Z.ltb_spec (Sort_Type b) (Sort_Type a)).
  { split; [discriminate|]. intros [?|[_ [?|[? _]]]]; lia. }
  split.
  - intros Hn. right. split; [lia|]. right. split; [lia|exact Hn].
  - intros [?|[_ [?|[_ Hn]]]]; [lia|lia|exact Hn].
Qed.

(** X3. The table calculate_numbers returns is in sorted order: each
    row is followed by a row of a later category rank, or of the same
    category and a later type rank, or of the same category and type
    and a last name token that is not smaller.  In particular the
    categories come in rank order over the whole table (MUS, PER, SNG,
    then the unrecognized ones). *)
Theorem calculate_numbers_in_key_order (df : JudgeFrame) :
  Sorted (fun a b =>
            (Sort_Cat a < Sort_Cat b)%Z
            \/ (Sort_Cat a = Sort_Cat b
                /\ ((Sort_Type a < Sort_Type b)%Z
                    \/ (Sort_Type a = Sort_Type b
                        /\ String.leb (Sort_Last_Name a) (Sort_Last_Name b)
                           = true))))
         (records (calculate_numbers df))
  /\ StronglySorted (fun a b => (Sort_Cat a <= Sort_Cat b)%Z)
                    (records (calculate_numbers df)).
Proof.
  pose proof (Sorted_map_inv _ _ _ (calculate_numbers_sorted df)) as H.
  unfold key_le in H. split.
  - eapply Sorted_ind with (P := fun l => Sorted _ l); [constructor| |exact H].
    intros a l _ IH Hhd. constructor; [exact IH|].
    destruct Hhd as [|b l Hab]; constructor. now apply key_leb_spec.
  - apply Sorted_StronglySorted.
    + intros x y z Hxy Hyz. lia.
    + eapply Sorted_ind with (P := fun l => Sorted _ l); [constructor| |exact H].
      intros a l _ IH Hhd. constructor; [exact IH|].
      destruct Hhd as [|b l Hab]; constructor. now apply key_leb_category.
Qed.

(** ** Rows the numbering loop has no mask for *)

Lemma Permutation_filter {A} (p : A -> bool) l1 l2 :
  Permutation l1 l2 -> Permutation (filter p l1) (filter p l2).
Proof.
  induction 1 as [|x l1 l2 _ IH|x y l|l1 l2 l3 _ IH1 _ IH2]; simpl.
  - constructor.
  - destruct (p x); [now constructor|exact IH].
  - destruct (p x), (p y); try reflexivity. apply perm_swap.
  - now transitivity (filter p l2).
Qed.

Lemma filter_differ (D : Judge -> bool) l1 l2 :
  shape_only D ->
  Forall2 (differ D) l1 l2 ->
  filter (fun r => negb (D r)) l1 = filter (fun r => negb (D r)) l2.
Proof.
  intros HD. induction 1 as [|a b l1 l2 [Hs Hn] _ IH]; simpl; [reflexivity|].
  rewrite <- (HD a b Hs). destruct (D a) eqn:E; simpl; [exact IH|].
  f_equal; [|exact IH]. apply unnumbered_eq_inv; auto.
Qed.

Lemma prepared_perm df :
  Permutation (prepared df) (map (before_numbering df) (records df)).
Proof.
  unfold prepared, before_numbering. destruct (has_Number df).
  - apply sort_values_perm.
  - rewrite <- (map_map clean_row (set_Number (Some 0%Z))).
    apply Permutation_map, sort_values_perm.
Qed.

(** X4. A row whose category is not MUS, PER or SNG, or whose type is
    neither Official nor Practice (after cleaning), is not numbered by
    calculate_numbers: it comes out with the number it had, or with 0
    when the table had no number column. *)
Theorem unrecognized_rows_pass_through (df : JudgeFrame) :
  Permutation
    (filter unrecognized (records (calculate_numbers df)))
    (filter unrecognized (map (before_numbering df) (records df))).
Proof.
  rewrite calculate_numbers_eq. cbn [records]. unfold assign_numbers.
  pose proof (fold_number_category_frame cat_order (prepared df) 1%Z) as H.
  apply (filter_differ _ _ _ (in_loop_masks_shape_only cat_order)) in H.
  unfold unrecognized. rewrite H.
  apply Permutation_filter, prepared_perm.
Qed.

(** ** Import: balanced panels get blocks of numbers *)

Lemma app_eq_length_inv {A} (l1 l1' l2 l2' : list A) :
  l1 ++ l2 = l1' ++ l2' -> length l1 = length l1' -> l1 = l1' /\ l2 = l2'.
Proof.
  revert l1'. induction l1 as [|a l1 IH]; intros [|b l1'] H Hlen;
    try discriminate; simpl in *.
  - now split.
  - injection H as -> H. destruct (IH l1' H) as [-> ->]; [lia|now split].
Qed.

Lemma count_rows_unnumbered m l :
  shape_only m -> count_rows m (map unnumbered l) = count_rows m l.
Proof.
  intros Hm. apply count_rows_shape; [exact Hm|].
  rewrite map_map. apply map_ext. intros r. apply unnumbered_idem.
Qed.

Lemma count_rows_perm m l1 l2 :
  Permutation l1 l2 -> count_rows m l1 = count_rows m l2.
Proof.
  intros H. unfold count_rows.
  apply Permutation_length, Permutation_filter, H.
Qed.

(** Numbering keeps the count of every mask that does not look at the
    number. *)
Lemma count_calculate_numbers m df :
  shape_only m ->
  count_rows m (records (calculate_numbers df))
  = count_rows m (map clean_row (records df)).
Proof.
  intros Hm.
  rewrite <- (count_rows_unnumbered m (records (calculate_numbers df)) Hm).
  rewrite <- (count_rows_unnumbered m (map clean_row (records df)) Hm).
  apply count_rows_perm, calculate_numbers_perm.
Qed.

Lemma imported_rows_cleaned raw :
  Forall (fun a => PyStr.strip (PyStr.title (aType a)) = aType a) raw ->
  Forall cleaned
    (map (fun a => {| jNumber := None; jName := aName a;
                      jCategory := aCategory a; jType := aType a;
                      jPrint := true |})
       (filter (fun a => existsb (String.eqb (aCategory a)) ["MUS"; "PER"; "SNG"])
          (map (fun a => mkAssignment (aName a)
                           (PyStr.strip (PyStr.upper (aCategory a)))
                           (aType a)) raw))).
Proof.
  induction 1 as [|a raw Ha _ IH]; [constructor|].
  cbn [map filter aCategory].
  destruct (existsb _ _); [|exact IH].
  cbn [map]. constructor; [|exact IH].
  unfold cleaned, clean_row. cbn [jNumber jName jCategory jType jPrint aName
                                    aCategory aType].
  now rewrite PyStrFacts.clean_category_idem, Ha.
Qed.

Lemma balanced_cleaned df :
  Forall cleaned (records df) ->
  Forall cleaned (records (balance_and_sort_judges df)).
Proof.
  intros H. rewrite balance_records. apply Forall_app. split; [exact H|].
  eapply Forall_impl; [|apply new_rows_absent].
  intros p [cat [Hcat ->]]. now apply absent_judge_cleaned.
Qed.

(** X5. When the types of an uploaded report are already in clean form
    (title case, no surrounding blanks), the imported table has panels
    of one size M in the three categories, and the Official judges,
    placeholders included, hold one block of numbers per category:
    MUS 1..M, PER M+1..2M, SNG 2M+1..3M. *)
Theorem import_balanced_blocks (raw_df : list AssignmentRow) :
  Forall (fun a => PyStr.strip (PyStr.title (aType a)) = aType a) raw_df ->
  let out := records (import_assignments raw_df) in
  let M := count_rows (mask "MUS" "Official") out in
  count_rows (mask "PER" "Official") out = M
  /\ count_rows (mask "SNG" "Official") out = M
  /\ map jNumber (filter (mask "MUS" "Official") out) = map Some (py_range 1 M)
  /\ map jNumber (filter (mask "PER" "Official") out)
     = map Some (py_range (1 + Z.of_nat M) M)
  /\ map jNumber (filter (mask "SNG" "Official") out)
     = map Some (py_range (1 + Z.of_nat M + Z.of_nat M) M).
Proof.
  intros Htypes. unfold import_assignments.
  set (clean_df := map _ (filter _ (map _ raw_df))).
  set (bal := balance_and_sort_judges
                {| has_Number := false; records := clean_df |}).
  cbv zeta. set (out := records (calculate_numbers bal)).
  assert (Hclean : Forall cleaned (records bal)).
  { apply balanced_cleaned. cbn [records]. now apply imported_rows_cleaned. }
  assert (Hcount : forall cat, In cat categories ->
            count_rows (mask cat "Official") out = max_official clean_df).
  { intros cat Hcat. unfold out.
    rewrite count_calculate_numbers by apply mask_shape_only.
    rewrite (map_cleaned _ Hclean). unfold bal.
    now rewrite count_balanced. }
  assert (HM : count_rows (mask "MUS" "Official") out = max_official clean_df)
    by (apply Hcount; simpl; auto).
  assert (HP : count_rows (mask "PER" "Official") out = max_official clean_df)
    by (apply Hcount; simpl; auto).
  assert (HS : count_rows (mask "SNG" "Official") out = max_official clean_df)
    by (apply Hcount; simpl; auto).
  rewrite HM, HP, HS. set (M := max_official clean_df) in *.
  split; [reflexivity|]. split; [reflexivity|].
  destruct (calculate_numbers_ranges bal) as [Hoff _]. cbv zeta in Hoff.
  fold out in Hoff. unfold officials_of, cat_order in Hoff.
  cbn [flat_map] in Hoff. rewrite app_nil_r, !length_app in Hoff.
  fold (count_rows (mask "MUS" "Official") out) in Hoff.
  fold (count_rows (mask "PER" "Official") out) in Hoff.
  fold (count_rows (mask "SNG" "Official") out) in Hoff.
  rewrite HM, HP, HS in Hoff.
  rewrite !py_range_app, !map_app in Hoff.
  apply app_eq_length_inv in Hoff as [H1 Hoff].
  2:{ rewrite !length_map, py_range_length. exact HM. }
  apply app_eq_length_inv in Hoff as [H2 H3].
  2:{ rewrite !length_map, py_range_length. exact HP. }
  auto.
Qed.

(** The theorem on a report with two MUS officials, one PER official
    typed in lower-case category, and a SNG practice judge. *)
Lemma import_balanced_blocks_witness :
  let raw_df := [mkAssignment "Ann Lee" "MUS" "Official";
                 mkAssignment "Bob Ray" "mus " "Official";
                 mkAssignment "Cy Fox" "per" "Official";
                 mkAssignment "Di Moe" "SNG" "Practice"] in
  Forall (fun a => PyStr.strip (PyStr.title (aType a)) = aType a) raw_df
  /\ map jNumber
         (filter (mask "PER" "Official") (records (import_assignments raw_df)))
     = [Some 3%Z; Some 4%Z].
Proof.
  cbv zeta.
  assert (H : Forall (fun a => PyStr.strip (PyStr.title (aType a)) = aType a)
                [mkAssignment "Ann Lee" "MUS" "Official";
                 mkAssignment "Bob Ray" "mus " "Official";
                 mkAssignment "Cy Fox" "per" "Official";
                 mkAssignment "Di Moe" "SNG" "Practice"])
    by (repeat constructor).
  split; [exact H|].
  destruct (import_balanced_blocks _ H) as (_ & _ & _ & HP & _).
  rewrite HP. reflexivity.
Defined.

(** * Manual edits *)















(** * File names *)

Lemma all_chars_nil p : all_chars p EmptyString.
Proof. constructor. Qed.

Lemma all_chars_cons p c s :
  all_chars p (String c s) <-> p c = true /\ all_chars p s.
Proof.
  unfold all_chars. simpl. split.
  - intros H. inversion H; subst. now split.
  - intros [? ?]. now constructor.
Qed.

Lemma all_chars_filter p s : all_chars p (PyStr.filter_chars p s).
Proof.
  induction s as [|c s IH]; simpl; [apply all_chars_nil|].
  destruct (p c) eqn:E; [|exact IH]. apply all_chars_cons. now split.
Qed.

Lemma all_chars_lstrip p s : all_chars p s -> all_chars p (PyStr.lstrip s).
Proof.
  induction s as [|c s IH]; simpl; [trivial|]. intros H.
  destruct (PyStr.isspace c); [|exact H].
  apply IH. now apply all_chars_cons in H.
Qed.

Lemma all_chars_rstrip p s : all_chars p s -> all_chars p (PyStr.rstrip s).
Proof.
  induction s as [|c s IH]; simpl; [trivial|]. intros H.
  apply all_chars_cons in H as [Hc Hs]. specialize (IH Hs).
  destruct (PyStr.rstrip s) as [|d r].
  - destruct (PyStr.isspace c); [apply all_chars_nil|].
    apply all_chars_cons. split; [exact Hc|apply all_chars_nil].
  - apply all_chars_cons. now split.
Qed.

Lemma all_chars_clean_filename text :
  all_chars filename_char (clean_filename text).
Proof.
  unfold clean_filename, PyStr.strip.
  apply all_chars_rstrip, all_chars_lstrip. apply all_chars_filter.
Qed.

Lemma filter_chars_fixed p s : all_chars p s -> PyStr.filter_chars p s = s.
Proof.
  induction s as [|c s IH]; simpl; [reflexivity|]. intros H.
  apply all_chars_cons in H as [-> Hs]. now rewrite IH.
Qed.

Lemma replace_char_fixed a new s :
  all_chars (fun c => negb (Ascii.eqb a c)) s -> replace_char a new s = s.
Proof.
  induction s as [|c s IH]; simpl; [reflexivity|]. intros H.
  apply all_chars_cons in H as [Hc Hs]. rewrite (IH Hs).
  apply negb_true_iff in Hc. now rewrite Hc.
Qed.

Lemma all_chars_impl (p q : ascii -> bool) s :
  (forall c, p c = true -> q c = true) -> all_chars p s -> all_chars q s.
Proof. intros Hpq. unfold all_chars. apply Forall_impl. exact Hpq. Qed.

Lemma filename_char_no_separator c :
  filename_char c = true ->
  negb (Ascii.eqb "/" c) = true /\ negb (Ascii.eqb "\" c) = true.
Proof.
  destruct c as [[] [] [] [] [] [] [] []]; vm_compute; intuition congruence.
Qed.

(** X8. A name made by clean_filename consists of letters, digits,
    blanks, hyphens and underscores only, so it holds no path
    separator, and it neither begins nor ends with whitespace. *)
Theorem clean_filename_safe (text : string) :
  all_chars filename_char (clean_filename text)
  /\ ~ In "/"%char (list_ascii_of_string (clean_filename text))
  /\ ~ In "\"%char (list_ascii_of_string (clean_filename text))
  /\ PyStr.strip (clean_filename text) = clean_filename text.
Proof.
  pose proof (all_chars_clean_filename text) as H.
  split; [exact H|]. unfold all_chars in H. rewrite Forall_forall in H.
  split; [|split].
  - intros Hin. specialize (H _ Hin). discriminate H.
  - intros Hin. specialize (H _ Hin). discriminate H.
  - unfold clean_filename. apply PyStrFacts.strip_idem.
Qed.

(** X9. clean_filename is idempotent: a cleaned name is a fixed point,
    so cleaning a file name component twice changes nothing. *)
Theorem clean_filename_idempotent (text : string) :
  clean_filename (clean_filename text) = clean_filename text.
Proof.
  pose proof (all_chars_clean_filename text) as H.
  set (name := clean_filename text) in *.
  unfold clean_filename at 1. rewrite !replace_one_char.
  rewrite (replace_char_fixed "/" "-" name).
  2:{ eapply all_chars_impl; [|exact H].
      intros c Hc. now apply filename_char_no_separator. }
  rewrite (replace_char_fixed "\" "-" name).
  2:{ eapply all_chars_impl; [|exact H].
      intros c Hc. now apply filename_char_no_separator. }
  fold filename_char. rewrite (filter_chars_fixed _ _ H).
  unfold name, clean_filename. apply PyStrFacts.strip_idem.
Qed.

(** * RTF escaping, continued *)

Lemma escape_each_app a b :
  (escape_each (a ++ b) = escape_each a ++ escape_each b)%string.
Proof.
  induction a as [|c a IH]; simpl; [reflexivity|].
  now rewrite IH, append_assoc.
Qed.

(** X10. Escaping distributes over concatenation: a text may be
    escaped piece by piece, as the label builders do, and an escaped
    text determines the text it came from. *)
Theorem escape_rtf_concat (a b : string) :
  (escape_rtf (Some (a ++ b)) = escape_rtf (Some a) ++ escape_rtf (Some b))%string
  /\ (escape_rtf (Some a) = escape_rtf (Some b) <-> a = b).
Proof.
  rewrite !escape_rtf_each. split; [apply escape_each_app|].
  split; [|now intros ->].
  intros H. apply (f_equal unescape_rtf) in H.
  now rewrite !unescape_escape_each in H.
Qed.

(** * Label documents *)

Lemma fold_left_pairs {S A B} (F : A -> B -> S -> S) (l : list A) (l' : list B)
      (st : S) :
  fold_left (fun st a => fold_left (fun st b => F a b st) l' st) l st
  = fold_left (fun st p => F (fst p) (snd p) st) (list_prod l l') st.
Proof.
  revert st. induction l as [|a l IH]; intros st; [reflexivity|].
  cbn [fold_left list_prod]. rewrite fold_left_app, <- IH. f_equal.
  clear. revert st. induction l' as [|b l' IH]; intros st; [reflexivity|].
  cbn [map fold_left]. apply IH.
Qed.

Lemma list_prod_nil_r {A B} (l : list A) : list_prod l (@nil B) = [].
Proof. induction l; simpl; auto. Qed.

(** The counter loop of [generate_rtf_content] over the remaining
    pairs, when the counter and the pairs left add up to the total. *)
Lemma label_loop (block : Judge * Competitor -> list string) total ps :
  forall rtf count,
    count + length ps = total ->
    fst (fold_left
           (fun st p =>
              let '(rtf, current_count) := st in
              let current_count := current_count + 1 in
              let rtf := rtf ++ block p in
              let rtf :=
                if Nat.ltb current_count total then rtf ++ ["\page "] else rtf in
              (rtf, current_count))
           ps (rtf, count))
    = rtf ++ join_pages (map block ps).
Proof.
  induction ps as [|p ps IH]; intros rtf count Hcount.
  - simpl. now rewrite app_nil_r.
  - cbn [fold_left map join_pages]. destruct ps as [|q ps].
    + cbn [fold_left map fst]. simpl in Hcount.
      destruct (Nat.ltb_spec (count + 1) total); [lia|reflexivity].
    + rewrite IH by (simpl in *; lia).
      destruct (Nat.ltb_spec (count + 1) total); [|simpl in *; lia].
      cbn [map]. now rewrite <- !app_assoc.
Qed.

(** X11. The contest labels document is its header, one block for
    every pair of a judge with a non-zero number and a competitor,
    judge by judge in roster order, a page break between each two
    blocks and none after the last, and the closing brace.  Without
    such a judge, or without a competitor, it is the header and the
    brace alone. *)
Theorem generate_rtf_content_blocks
        (judges_df : list Judge) (competitors_df : list Competitor)
        (context : ContestContext) :
  generate_rtf_content judges_df competitors_df context
  = String.concat ""
      (contest_labels_header
       ++ join_pages
            (map (fun p => label_block (fst p) (snd p) context)
                 (list_prod (filter Number_not_zero judges_df) competitors_df))
       ++ ["}"])
  /\ generate_rtf_content
       (filter (fun j => Number_is_zero (jNumber j)) judges_df)
       competitors_df context
     = String.concat "" (contest_labels_header ++ ["}"])
  /\ generate_rtf_content judges_df [] context
     = String.concat "" (contest_labels_header ++ ["}"]).
Proof.
  assert (Hform : forall judges comps,
            generate_rtf_content judges comps context
            = String.concat ""
                (contest_labels_header
                 ++ join_pages
                      (map (fun p => label_block (fst p) (snd p) context)
                           (list_prod (filter Number_not_zero judges) comps))
                 ++ ["}"])).
  { intros judges comps. unfold generate_rtf_content.
    set (valid := filter Number_not_zero judges).
    rewrite (fold_left_pairs
               (fun judge comp (st : list string * nat) =>
                  let '(rtf, current_count) := st in
                  let current_count := current_count + 1 in
                  let rtf := rtf ++ label_block judge comp context in
                  let rtf :=
                    if Nat.ltb current_count (length comps * length valid)
                    then rtf ++ ["\page "] else rtf in
                  (rtf, current_count))).
    pose proof (label_loop (fun p => label_block (fst p) (snd p) context)
                  (length comps * length valid) (list_prod valid comps)
                  contest_labels_header 0) as H.
    rewrite length_prod in H. specialize (H (Nat.mul_comm _ _)).
    unfold contest_labels_header in *.
    destruct (fold_left _ (list_prod valid comps) _) as [rtf n].
    cbn [fst] in H. rewrite H. now rewrite <- app_assoc. }
  split; [apply Hform|]. split.
  - rewrite Hform.
    replace (filter Number_not_zero
               (filter (fun j => Number_is_zero (jNumber j)) judges_df))
      with (@nil Judge); [reflexivity|].
    induction judges_df as [|j js IH]; [reflexivity|]. cbn [filter].
    destruct (Number_is_zero (jNumber j)) eqn:E; [|exact IH].
    cbn [filter]. unfold Number_not_zero at 1. now rewrite E.
  - rewrite Hform, list_prod_nil_r. reflexivity.
Qed.

Lemma pair_up_ind {A} (P : list A -> Prop) :
  P [] -> (forall a, P [a]) -> (forall a b l, P l -> P (a :: b :: l)) ->
  forall l, P l.
Proof.
  intros H0 H1 H2. fix IH 1. intros [|a [|b l]].
  - exact H0.
  - apply H1.
  - apply H2, IH.
Qed.

Lemma pair_up_nth {A} (d : A) (l : list A) :
  pair_up l
  = map (fun k => (nth (2 * k) l d, nth_error l (2 * k + 1)))
        (seq 0 ((length l + 1) / 2)).
Proof.
  induction l as [| a | a b l IH] using pair_up_ind; [reflexivity..|].
  cbn [pair_up length].
  replace ((S (S (length l)) + 1) / 2) with (S ((length l + 1) / 2)).
  - cbn [seq map]. f_equal. rewrite IH, <- seq_shift, map_map.
    apply map_ext. intros k.
    replace (2 * S k) with (S (S (2 * k))) by lia. reflexivity.
  - replace (S (S (length l)) + 1) with (length l + 1 + 1 * 2) by lia.
    rewrite Nat.div_add by lia. lia.
Qed.

Lemma length_pair_up {A} (l : list A) :
  length (pair_up l) = (length l + 1) / 2.
Proof.
  set (d := l). destruct l as [|a l]; [reflexivity|].
  now rewrite (pair_up_nth a d), length_map, length_seq.
Qed.

(** The index loop [for i in range(0, len(l), 2)] visits the list two
    by two. *)
Lemma mapM_two_by_two {A B} (l : list A) (g : A -> option A -> B) :
  mapM (fun i =>
          a <- nth_error l i ;;
          b <- (if Nat.ltb (i + 1) (length l)
                then c <- nth_error l (i + 1) ;; Some (Some c)
                else Some None) ;;
          Some (g a b))
       (py_range3 0 (length l) 2)
  = Some (map (fun p => g (fst p) (snd p)) (pair_up l)).
Proof.
  destruct l as [|d l0]; [reflexivity|]. set (l := d :: l0).
  rewrite (pair_up_nth d l), map_map, py_range3_two.
  rewrite <- (map_map (fun k => 2 * k)
                      (fun i => g (nth i l d) (nth_error l (i + 1)))).
  apply mapM_Some. intros i Hi.
  apply in_map_iff in Hi as [k [<- Hk]]. apply in_seq in Hk.
  assert (Hlt : 2 * k < length l).
  { pose proof (Nat.Div0.mul_div_le (length l + 1) 2). lia. }
  rewrite (nth_error_nth' l d Hlt).
  destruct (Nat.ltb_spec (2 * k + 1) (length l)) as [H1|H1].
  - now rewrite (nth_error_nth' l d H1).
  - assert (Hnone : nth_error l (2 * k + 1) = None)
      by (apply nth_error_None; lia).
    now rewrite Hnone.
Qed.

(** X12. The folder labels document never fails on an index: it is
    its header, one table row for every two judges that are marked for
    print and have a non-zero number (the last judge alone with a blank
    cell when their count is odd), and the closing brace. *)
Theorem generate_folder_labels_rtf_rows
        (judges_df : list Judge) (context : ContestContext) :
  let judges := filter Number_not_zero (filter Print_is_True judges_df) in
  generate_folder_labels_rtf judges_df context
  = Some (String.concat ""
            (folder_labels_header
             ++ flat_map (fun p => folder_row (fst p) (snd p) context)
                         (pair_up judges)
             ++ ["}"]))
  /\ length (pair_up judges) = (length judges + 1) / 2.
Proof.
  cbv zeta. split; [|apply length_pair_up].
  unfold generate_folder_labels_rtf.
  rewrite (mapM_two_by_two _ (fun j1 j2 => folder_row j1 j2 context)).
  now rewrite flat_map_concat_map.
Qed.

(** * Page composition, continued *)





(** * Documents of the PDF modes *)

Lemma judge_packets_documents templates judges comps ctx ss sd :
  every_document
    (fun doc =>
       0 < length (snd doc)
       /\ exists judge,
            In judge judges
            /\ Number_is_zero (jNumber judge) = false
            /\ fst doc = pdf_name ss (clean_filename (jName judge)) sd)
    (judge_packets templates judges comps ctx ss sd).
Proof.
  induction judges as [|j judges IH]; [constructor|].
  assert (Hrest :
            every_document
              (fun doc =>
                 0 < length (snd doc)
                 /\ exists judge,
                      In judge (j :: judges)
                      /\ Number_is_zero (jNumber judge) = false
                      /\ fst doc
                         = pdf_name ss (clean_filename (jName judge)) sd)
              (judge_packets templates judges comps ctx ss sd)).
  { destruct (judge_packets templates judges comps ctx ss sd) as [docs|];
      [|exact I].
    cbn [every_document] in *. eapply Forall_impl; [|exact IH].
    intros doc (Hlen & judge & Hin & Hz & Hname).
    split; [exact Hlen|]. exists judge. split; [now right|now split]. }
  cbn [judge_packets].
  destruct (Number_is_zero (jNumber j)) eqn:Ez; [exact Hrest|].
  destruct (dict_get FORMAT_MAPPING (jCategory j) []) as [|t ts];
    [exact Hrest|].
  destruct (judge_templates templates (t :: ts) j comps ctx) as [writer|];
    [|exact I].
  destruct (judge_packets templates judges comps ctx ss sd) as [docs|];
    [|exact I].
  destruct (Nat.ltb_spec 0 (length writer)) as [Hpos|_]; [|exact Hrest].
  cbn [every_document] in *. constructor; [|exact Hrest].
  cbn [fst snd]. split; [exact Hpos|].
  exists j. split; [now left|now split].
Qed.

Lemma category_formats_documents templates formats judges comps ctx ss sd :
  every_document
    (fun doc =>
       0 < length (snd doc)
       /\ exists t_name,
            In t_name formats
            /\ exists_file templates t_name = true
            /\ fst doc = pdf_name ss (PyStr.replace ".pdf" "" t_name) sd)
    (category_formats templates formats judges comps ctx ss sd).
Proof.
  induction formats as [|t formats IH]; [constructor|].
  assert (Hrest :
            every_document
              (fun doc =>
                 0 < length (snd doc)
                 /\ exists t_name,
                      In t_name (t :: formats)
                      /\ exists_file templates t_name = true
                      /\ fst doc
                         = pdf_name ss (PyStr.replace ".pdf" "" t_name) sd)
              (category_formats templates formats judges comps ctx ss sd)).
  { destruct (category_formats templates formats judges comps ctx ss sd)
      as [docs|]; [|exact I].
    cbn [every_document] in *. eapply Forall_impl; [|exact IH].
    intros doc (Hlen & t_name & Hin & He & Hname).
    split; [exact Hlen|]. exists t_name. split; [now right|now split]. }
  cbn [category_formats].
  destruct (exists_file templates t) eqn:Ee; cbn [negb]; [|exact Hrest].
  destruct (category_pages templates t _ judges comps ctx) as [writer|];
    [|exact I].
  destruct (category_formats templates formats judges comps ctx ss sd)
    as [docs|]; [|exact I].
  destruct (Nat.ltb_spec 0 (length writer)) as [Hpos|_]; [|exact Hrest].
  cbn [every_document] in *. constructor; [|exact Hrest].
  cbn [fst snd]. split; [exact Hpos|].
  exists t. split; [now left|now split].
Qed.

Lemma category_files_documents templates cats judges comps ctx ss sd :
  every_document
    (fun doc =>
       0 < length (snd doc)
       /\ exists cat formats t_name,
            In (cat, formats) cats
            /\ In t_name formats
            /\ exists_file templates t_name = true
            /\ fst doc = pdf_name ss (PyStr.replace ".pdf" "" t_name) sd)
    (category_files templates cats judges comps ctx ss sd).
Proof.
  induction cats as [|[cat formats] cats IH]; [constructor|].
  assert (Hrest :
            every_document
              (fun doc =>
                 0 < length (snd doc)
                 /\ exists c f t_name,
                      In (c, f) ((cat, formats) :: cats)
                      /\ In t_name f
                      /\ exists_file templates t_name = true
                      /\ fst doc
                         = pdf_name ss (PyStr.replace ".pdf" "" t_name) sd)
              (category_files templates cats judges comps ctx ss sd)).
  { destruct (category_files templates cats judges comps ctx ss sd)
      as [docs|]; [|exact I].
    cbn [every_document] in *. eapply Forall_impl; [|exact IH].
    intros doc (Hlen & c & f & t_name & Hin & Ht & He & Hname).
    split; [exact Hlen|]. exists c, f, t_name. split; [now right|auto]. }
  cbn [category_files].
  destruct (filter (Category_is cat) judges) as [|j js]; [exact Hrest|].
  pose proof (category_formats_documents templates formats (j :: js) comps
                ctx ss sd) as Hfiles.
  destruct (category_formats templates formats (j :: js) comps ctx ss sd)
    as [files|]; [|exact I].
  destruct (category_files templates cats judges comps ctx ss sd) as [docs|];
    [|exact I].
  cbn [every_document] in *. apply Forall_app. split; [|exact Hrest].
  eapply Forall_impl; [|exact Hfiles].
  intros doc (Hlen & t_name & Hin & He & Hname).
  split; [exact Hlen|]. exists cat, formats, t_name. split; [now left|auto].
Qed.

(** X14. The PDF modes drop documents without pages and name each
    document after what it is for: a Per-Judge packet has at least one
    page and carries the cleaned name of a judge who is marked for
    print and has a non-zero number; a Per-Category file has at least
    one page and carries the name, without its extension, of a
    template of FORMAT_MAPPING that exists. *)
Theorem generated_documents_nonempty
        (templates : TemplateDir) (contest_context : ContestContext)
        (safe_session safe_date : string)
        (final_judges : list Judge) (final_competitors : list Competitor) :
  every_document
    (fun doc =>
       0 < length (snd doc)
       /\ exists judge,
            In judge final_judges
            /\ jPrint judge = true
            /\ Number_is_zero (jNumber judge) = false
            /\ fst doc
               = pdf_name safe_session (clean_filename (jName judge)) safe_date)
    (by_judge_pdfs templates contest_context safe_session safe_date
                   final_judges final_competitors)
  /\ every_document
       (fun doc =>
          0 < length (snd doc)
          /\ exists cat formats t_name,
               In (cat, formats) FORMAT_MAPPING
               /\ In t_name formats
               /\ exists_file templates t_name = true
               /\ fst doc
                  = pdf_name safe_session (PyStr.replace ".pdf" "" t_name)
                             safe_date)
       (by_category_files templates contest_context safe_session safe_date
                          final_judges final_competitors).
Proof.
  split; [|apply category_files_documents].
  unfold by_judge_pdfs.
  destruct (is_empty _ || is_empty _); [constructor|].
  pose proof (judge_packets_documents templates
                (filter Print_is_True final_judges)
                (filter cPrint final_competitors) contest_context
                safe_session safe_date) as H.
  destruct (judge_packets _ _ _ _ _ _) as [docs|]; [|exact I].
  cbn [every_document] in *. eapply Forall_impl; [|exact H].
  intros doc (Hlen & judge & Hin & Hz & Hname).
  apply filter_In in Hin as [Hin Hp].
  split; [exact Hlen|]. exists judge. auto.
Qed.

(** ** Nothing to print *)

Lemma category_files_no_judge templates cats comps ctx ss sd :
  category_files templates cats [] comps ctx ss sd = Some [].
Proof.
  induction cats as [|[cat formats] cats IH]; [reflexivity|].
  cbn [category_files filter]. exact IH.
Qed.

Lemma category_pages_no_competitor templates t_name is_short judges ctx :
  category_pages templates t_name is_short judges [] ctx = Some [].
Proof.
  induction judges as [|j judges IH]; [reflexivity|].
  cbn [category_pages]. rewrite IH.
  destruct (Number_is_zero (jNumber j)); [reflexivity|].
  now destruct is_short.
Qed.

Lemma category_formats_no_competitor templates formats judges ctx ss sd :
  category_formats templates formats judges [] ctx ss sd = Some [].
Proof.
  induction formats as [|t formats IH]; [reflexivity|].
  cbn [category_formats]. rewrite IH, category_pages_no_competitor.
  now destruct (negb (exists_file templates t)).
Qed.

Lemma category_files_no_competitor templates cats judges ctx ss sd :
  category_files templates cats judges [] ctx ss sd = Some [].
Proof.
  induction cats as [|[cat formats] cats IH]; [reflexivity|].
  cbn [category_files]. rewrite IH, category_formats_no_competitor.
  now destruct (filter (Category_is cat) judges).
Qed.

(** X15. With no judge marked for print, or no competitor marked for
    print, the two PDF modes generate no document and raise nothing,
    whatever templates there are. *)
Theorem nothing_to_print
        (templates : TemplateDir) (contest_context : ContestContext)
        (safe_session safe_date : string)
        (final_judges : list Judge) (final_competitors : list Competitor) :
  filter Print_is_True final_judges = []
  \/ filter cPrint final_competitors = [] ->
  by_judge_pdfs templates contest_context safe_session safe_date
                final_judges final_competitors = Some []
  /\ by_category_files templates contest_context safe_session safe_date
                       final_judges final_competitors = Some [].
Proof.
  intros H. unfold by_judge_pdfs, by_category_files.
  destruct H as [-> | ->].
  - split; [reflexivity|apply category_files_no_judge].
  - split; [now rewrite orb_true_r|apply category_files_no_competitor].
Qed.

(** The theorem on a roster whose only judge is not marked for
    print. *)
Lemma nothing_to_print_witness :
  let judges := [mkJudge (Some 1%Z) "Ann Lee" "MUS" "Official" false] in
  let comps := [mkCompetitor (Some 10%Z) "Test Quartet" None true] in
  let ctx := mkContext "Example" "Quartet Finals" "05/01/2024" in
  (filter Print_is_True judges = [] \/ filter cPrint comps = [])
  /\ by_category_files (fun _ => None) ctx "S" "D" judges comps = Some [].
Proof.
  cbv zeta.
  assert (H : filter Print_is_True
                [mkJudge (Some 1%Z) "Ann Lee" "MUS" "Official" false] = []
              \/ filter cPrint
                   [mkCompetitor (Some 10%Z) "Test Quartet" None true] = [])
    by (left; reflexivity).
  split; [exact H|].
  exact (proj2 (nothing_to_print (fun _ => None)
                  (mkContext "Example" "Quartet Finals" "05/01/2024")
                  "S" "D" _ _ H)).
Defined.

(** * Blank forms *)

Lemma add_pages_loop (reader : list Page) w n :
  fold_left
    (fun (st : list Page * nat) page =>
       let '(output_writer, pages_added) := st in
       (output_writer ++ [page], pages_added + 1))
    reader (w, n)
  = (w ++ reader, n + length reader).
Proof.
  revert w n. induction reader as [|p reader IH]; intros w n.
  - simpl. now rewrite app_nil_r, Nat.add_0_r.
  - cbn [fold_left]. rewrite IH. cbn [length].
    rewrite <- app_assoc. f_equal. lia.
Qed.

Lemma add_copies_loop {A} (reader : list Page) (turns : list A) w n :
  fold_left
    (fun (st : list Page * nat) (_ : A) =>
       fold_left
         (fun (st : list Page * nat) page =>
            let '(output_writer, pages_added) := st in
            (output_writer ++ [page], pages_added + 1))
         reader st)
    turns (w, n)
  = (w ++ concat (repeat reader (length turns)),
     n + length (concat (repeat reader (length turns)))).
Proof.
  revert w n. induction turns as [|a turns IH]; intros w n.
  - simpl. now rewrite app_nil_r, Nat.add_0_r.
  - cbn [fold_left]. rewrite add_pages_loop, IH.
    cbn [length repeat concat]. rewrite length_app, <- app_assoc.
    f_equal. lia.
Qed.

Lemma blank_forms_loop templates requests w n :
  fold_left
    (fun (st : list Page * nat) (request : string * Z) =>
       let '(fmt_name, count) := request in
       if (0 <? count)%Z then
         match templates (fmt_name ++ ".pdf")%string with
         | None => st
         | Some reader =>
             fold_left
               (fun st _ =>
                  fold_left
                    (fun st page =>
                       let '(output_writer, pages_added) := st in
                       (output_writer ++ [page], pages_added + 1))
                    reader st)
               (seq 0 (Z.to_nat count)) st
         end
       else st)
    requests (w, n)
  = (w ++ requested_pages templates requests,
     n + length (requested_pages templates requests)).
Proof.
  revert w n. induction requests as [|[fmt_name count] requests IH];
    intros w n.
  - simpl. now rewrite app_nil_r, Nat.add_0_r.
  - assert (Hcons :
              requested_pages templates ((fmt_name, count) :: requests)
              = match templates (fmt_name ++ ".pdf")%string with
                | Some reader => concat (repeat reader (Z.to_nat count))
                | None => []
                end ++ requested_pages templates requests) by reflexivity.
    rewrite Hcons. cbn [fold_left].
    destruct (Z.ltb_spec 0 count) as [Hpos|Hneg].
    + destruct (templates (fmt_name ++ ".pdf")%string) as [reader|].
      * rewrite add_copies_loop, length_seq, IH.
        rewrite length_app, <- app_assoc. f_equal. lia.
      * apply IH.
    + rewrite IH. replace (Z.to_nat count) with 0 by lia.
      now destruct (templates (fmt_name ++ ".pdf")%string).
Qed.

Lemma generate_blank_forms_eq templates requests :
  generate_blank_forms templates requests
  = match requested_pages templates requests with
    | [] => (None, 0)
    | pages => (Some pages, length pages)
    end.
Proof.
  unfold generate_blank_forms. rewrite blank_forms_loop. cbn [app Nat.add].
  now destruct (requested_pages templates requests).
Qed.

Lemma length_concat_repeat {A} (l : list A) k :
  length (concat (repeat l k)) = k * length l.
Proof.
  induction k as [|k IH]; [reflexivity|].
  cbn [repeat concat]. rewrite length_app, IH. lia.
Qed.

(** X16. The blank forms document holds, request after request, the
    pages of each requested template that exists, as many times over
    as the request says; the page count returned is the number of its
    pages, and no document and a count of 0 are returned when that
    number is 0. *)
Theorem generate_blank_forms_pages
        (templates : TemplateDir) (requests : list (string * Z)) :
  generate_blank_forms templates requests
  = match requested_pages templates requests with
    | [] => (None, 0)
    | pages => (Some pages, length pages)
    end
  /\ length (requested_pages templates requests)
     = list_sum
         (map (fun request =>
                 match templates (fst request ++ ".pdf")%string with
                 | Some reader => Z.to_nat (snd request) * length reader
                 | None => 0
                 end)
              requests).
Proof.
  split; [apply generate_blank_forms_eq|].
  unfold requested_pages.
  induction requests as [|request requests IH]; [reflexivity|].
  cbn [flat_map map list_sum]. rewrite length_app, IH.
  destruct (templates (fst request ++ ".pdf")%string) as [reader|];
    [|reflexivity].
  now rewrite length_concat_repeat.
Qed.

(** X17. When every request has a count of 0 (or less), or names a
    template that is missing, generate_blank_forms returns no document
    and a page count of 0. *)
Theorem generate_blank_forms_none
        (templates : TemplateDir) (requests : list (string * Z)) :
  Forall (fun request =>
            (snd request <= 0)%Z
            \/ templates (fst request ++ ".pdf")%string = None)
         requests ->
  generate_blank_forms templates requests = (None, 0).
Proof.
  intros H. rewrite generate_blank_forms_eq.
  replace (requested_pages templates requests) with (@nil Page);
    [reflexivity|].
  unfold requested_pages. induction H as [|request requests Hr _ IH];
    [reflexivity|].
  cbn [flat_map]. rewrite <- IH, app_nil_r.
  destruct Hr as [Hr| ->]; [|reflexivity].
  replace (Z.to_nat (snd request)) with 0 by lia.
  now destruct (templates (fst request ++ ".pdf")%string).
Qed.

(** The theorem on the six requests of the form, all at 0. *)
Lemma generate_blank_forms_none_witness :
  let blank := {| mediabox_width := 612; mediabox_height := 792;
                  contents := [] |} in
  let requests := [("MUS_Long", 0%Z); ("MUS_Short", 0%Z); ("PER_Long", 0%Z);
                   ("PER_Short", 0%Z); ("SNG_Long", 0%Z); ("SNG_Short", 0%Z)] in
  Forall (fun request =>
            (snd request <= 0)%Z
            \/ (fun _ : string => Some [blank]) (fst request ++ ".pdf")%string
               = None)
         requests
  /\ generate_blank_forms (fun _ => Some [blank]) requests = (None, 0).
Proof.
  cbv zeta.
  assert (H : Forall (fun request : string * Z =>
                        (snd request <= 0)%Z
                        \/ (fun _ : string =>
                              Some [{| mediabox_width := 612;
                                       mediabox_height := 792;
                                       contents := [] |}])
                             (fst request ++ ".pdf")%string = None)
                [("MUS_Long", 0%Z); ("MUS_Short", 0%Z); ("PER_Long", 0%Z);
                 ("PER_Short", 0%Z); ("SNG_Long", 0%Z); ("SNG_Short", 0%Z)]).
  { repeat (apply Forall_cons; [left; simpl; lia|]). apply Forall_nil. }
  split; [exact H|].
  exact (generate_blank_forms_none _ _ H).
Defined.
